(** * Student portal backend: unit allocation, registration and document upload

    A shallow embedding of the request handlers of [src/index.js] that carry
    the allocation workflow and the document upload subsystem, together with
    the relational schema of [src/migrations] and [src/db.js].

    Conventions.
    - A table is the list of its rows, in insertion order.  A [SELECT] without
      [ORDER BY] returns the matching rows in table order.
    - Identifiers generated by the database ([gen_random_uuid()]) are drawn
      from a counter kept in the database state, so that a fresh identifier
      differs from every identifier handed out before.
    - Timestamps are milliseconds since the epoch.
    - Columns that no modelled handler reads ([allocated_by], [allocated_at],
      [created_at], [updated_at], the students' profile columns) are left
      out of the rows.
    - Console logging has no effect on any result and is not modelled. *)

From Stdlib Require Import String Ascii List ZArith QArith Bool Arith Lia.
From Stdlib Require Import DecimalString Permutation Sorted.
Import ListNotations.
Local Open Scope nat_scope.
Local Open Scope string_scope.

(* ------------------------------------------------------------------------- *)
(** ** JavaScript values and exceptions *)

Module Js.

(** Errors raised by the database driver, by constraint of the schema. *)
Inductive db_error :=
| unique_violation (constraint : string)
| check_violation (constraint : string)
| foreign_key_violation (constraint : string)
| string_data_right_truncation (limit : nat)
| numeric_value_out_of_range.

(** A thrown JavaScript value: an error of the driver or [new Error(msg)]. *)
Inductive error :=
| PostgresError (e : db_error)
| Error (msg : string).

Definition db_message (e : db_error) : string :=
  match e with
  | unique_violation c => "duplicate key value violates unique constraint " ++ c
  | check_violation c => "new row violates check constraint " ++ c
  | foreign_key_violation c => "insert or update violates foreign key constraint " ++ c
  | string_data_right_truncation n =>
      "value too long for type character varying(" ++
      NilZero.string_of_uint (Nat.to_uint n) ++ ")"
  | numeric_value_out_of_range => "integer out of range"
  end.

(** [error.message] *)
Definition message (e : error) : string :=
  match e with
  | PostgresError d => db_message d
  | Error m => m
  end.

(** The result of evaluating an expression that may throw. *)
Inductive outcome (A : Type) :=
| Return (a : A)
| Throw (e : error).
Arguments Return {A} a.
Arguments Throw {A} e.

(** Code that may throw while it changes a store [S]: the store after a
    [Throw] is the store at the point of the exception. *)
Definition M (S A : Type) : Type := S -> outcome A * S.

Definition ret {S A : Type} (a : A) : M S A := fun s => (Return a, s).

Definition throw {S A : Type} (e : error) : M S A := fun s => (Throw e, s).

Definition bind {S A B : Type} (c : M S A) (k : A -> M S B) : M S B :=
  fun s => match c s with
           | (Return a, s') => k a s'
           | (Throw e, s') => (Throw e, s')
           end.

(** Template-literal rendering of numbers. *)
Definition show_nat (n : nat) : string := NilZero.string_of_uint (Nat.to_uint n).
Definition show_Z (z : Z) : string := NilZero.string_of_int (Z.to_int z).

(** Truthiness of a string that may be absent. *)
Definition truthy (s : option string) : bool :=
  match s with
  | Some s => negb (s =? "")
  | None => false
  end.

End Js.
Import Js.

Declare Scope js_scope.
Delimit Scope js_scope with js.
Notation "x <- c ;; k" := (bind c (fun x => k))
  (at level 61, c at next level, right associativity) : js_scope.

(* ------------------------------------------------------------------------- *)
(** ** The relational store *)

Module Db.

Definition ident := nat.

(** [allocated_units.status], restricted by its CHECK constraint. *)
Inductive alloc_status := Allocated | Registered | Cancelled.

Definition alloc_status_eqb (a b : alloc_status) : bool :=
  match a, b with
  | Allocated, Allocated | Registered, Registered | Cancelled, Cancelled => true
  | _, _ => false
  end.

Record student := {
  st_id : ident;
  st_registration_number : string;
  st_name : string
}.

Record unit_row := {
  u_id : ident;
  u_unit_name : string;
  u_unit_code : string
}.

Record allocated_unit := {
  au_id : ident;
  au_student_id : ident;
  au_unit_id : ident;
  au_semester : Z;
  au_academic_year : string;
  au_status : alloc_status;
  au_notes : option string
}.

Record registered_unit := {
  ru_id : ident;
  ru_student_id : ident;
  ru_unit_name : string;
  ru_unit_code : string;
  ru_status : string
}.

Record student_document := {
  sd_id : ident;
  sd_registration_number : string;
  sd_document_type : string;
  sd_file_url : string;
  sd_file_name : string;
  sd_file_size : Z;
  sd_uploaded_at : Z
}.

(** [numeric]: a rational or the special value NaN. *)
Inductive numeric := NumNaN | Num (q : Q).

Record fee := {
  fee_student_id : ident;
  fee_balance : numeric
}.

Record db := {
  students : list student;
  units : list unit_row;
  allocated_units : list allocated_unit;
  registered_units : list registered_unit;
  student_documents : list student_document;
  fees : list fee;
  next_uuid : ident
}.

Definition set_allocated_units (d : db) (l : list allocated_unit) (n : ident) : db :=
  {| students := students d; units := units d; allocated_units := l;
     registered_units := registered_units d;
     student_documents := student_documents d; fees := fees d;
     next_uuid := n |}.

Definition set_registered_units (d : db) (l : list registered_unit) (n : ident) : db :=
  {| students := students d; units := units d;
     allocated_units := allocated_units d; registered_units := l;
     student_documents := student_documents d; fees := fees d;
     next_uuid := n |}.

Definition set_units (d : db) (l : list unit_row) (n : ident) : db :=
  {| students := students d; units := l;
     allocated_units := allocated_units d;
     registered_units := registered_units d;
     student_documents := student_documents d; fees := fees d;
     next_uuid := n |}.

Definition set_student_documents (d : db) (l : list student_document) (n : ident) : db :=
  {| students := students d; units := units d;
     allocated_units := allocated_units d;
     registered_units := registered_units d;
     student_documents := l; fees := fees d;
     next_uuid := n |}.

(** *** Queries *)

(** [SELECT ... FROM students WHERE registration_number = $1] *)
Definition select_student_by_registration (d : db) (reg : string) : list student :=
  filter (fun s => st_registration_number s =? reg) (students d).

(** [SELECT ... FROM students WHERE id = $1] *)
Definition select_student_by_id (d : db) (id : ident) : list student :=
  filter (fun s => st_id s =? id)%nat (students d).

(** [SELECT id, unit_name, unit_code FROM units WHERE id = $1] *)
Definition select_unit_by_id (d : db) (id : ident) : list unit_row :=
  filter (fun u => u_id u =? id)%nat (units d).

(** [SELECT id FROM units WHERE unit_code = $1] *)
Definition select_unit_by_code (d : db) (code : string) : list unit_row :=
  filter (fun u => u_unit_code u =? code) (units d).

Definition same_key (student_id unit_id : ident) (sem : Z) (year : string)
           (a : allocated_unit) : bool :=
  (au_student_id a =? student_id)%nat && (au_unit_id a =? unit_id)%nat &&
  (au_semester a =? sem)%Z && (au_academic_year a =? year).

(** [SELECT id FROM allocated_units WHERE student_id = .. AND unit_id = ..
     AND semester = .. AND academic_year = .. AND status != 'cancelled'] *)
Definition select_active_allocation (d : db) (student_id unit_id : ident)
           (sem : Z) (year : string) : list allocated_unit :=
  filter (fun a => same_key student_id unit_id sem year a &&
                   negb (alloc_status_eqb (au_status a) Cancelled))
         (allocated_units d).

(** [SELECT id FROM registered_units WHERE student_id = $1 AND unit_code = $2] *)
Definition select_registered (d : db) (student_id : ident) (code : string)
  : list registered_unit :=
  filter (fun r => (ru_student_id r =? student_id)%nat && (ru_unit_code r =? code))
         (registered_units d).

(** *** Statements that write *)

(** [INSERT INTO allocated_units (student_id, unit_id, semester,
     academic_year, status, notes) VALUES (..) RETURNING *], under the
    constraints of the table: the CHECK on [semester], the constraint
    [unique_student_unit_semester], which spans every status, and the two
    foreign keys. *)
Definition insert_allocated_unit (student_id unit_id : ident)
           (sem : Z) (year : string) (status : alloc_status)
           (notes : option string)
  : M db (list allocated_unit) :=
  fun d =>
  if negb ((sem =? 1)%Z || (sem =? 2)%Z) then
    (Throw (PostgresError (check_violation "allocated_units_semester_check")), d)
  else if existsb (same_key student_id unit_id sem year) (allocated_units d) then
    (Throw (PostgresError (unique_violation "unique_student_unit_semester")), d)
  else if negb (existsb (fun s => st_id s =? student_id)%nat (students d)) then
    (Throw (PostgresError (foreign_key_violation "allocated_units_student_id_fkey")), d)
  else if negb (existsb (fun u => u_id u =? unit_id)%nat (units d)) then
    (Throw (PostgresError (foreign_key_violation "allocated_units_unit_id_fkey")), d)
  else
    let row := {| au_id := next_uuid d; au_student_id := student_id;
                  au_unit_id := unit_id; au_semester := sem;
                  au_academic_year := year; au_status := status;
                  au_notes := notes |} in
    (Return [row],
     set_allocated_units d (allocated_units d ++ [row]) (S (next_uuid d))).

Definition with_status (a : allocated_unit) (status : alloc_status)
  : allocated_unit :=
  {| au_id := au_id a; au_student_id := au_student_id a;
     au_unit_id := au_unit_id a; au_semester := au_semester a;
     au_academic_year := au_academic_year a; au_status := status;
     au_notes := au_notes a |}.

(** [UPDATE allocated_units SET status = $1 WHERE id = $2] *)
Definition update_allocated_status (id : ident) (status : alloc_status)
  : M db unit :=
  fun d =>
    (Return tt,
     set_allocated_units d
       (map (fun a => if (au_id a =? id)%nat then with_status a status else a)
            (allocated_units d))
       (next_uuid d)).

(** [INSERT INTO registered_units (student_id, unit_name, unit_code, status)
     VALUES (..) RETURNING *]; the table has a foreign key to students and
    no uniqueness constraint besides its primary key. *)
Definition insert_registered_unit (student_id : ident)
           (unit_name unit_code status : string)
  : M db (list registered_unit) :=
  fun d =>
    if negb (existsb (fun s => st_id s =? student_id)%nat (students d)) then
      (Throw (PostgresError (foreign_key_violation "registered_units_student_id_fkey")), d)
    else
      let row := {| ru_id := next_uuid d; ru_student_id := student_id;
                    ru_unit_name := unit_name; ru_unit_code := unit_code;
                    ru_status := status |} in
      (Return [row],
       set_registered_units d (registered_units d ++ [row]) (S (next_uuid d))).

(** [INSERT INTO units (unit_name, unit_code) VALUES ($1, $2)], under the
    uniqueness of [unit_code]. *)
Definition insert_unit (unit_name unit_code : string) : M db unit :=
  fun d =>
    if existsb (fun u => u_unit_code u =? unit_code) (units d) then
      (Throw (PostgresError (unique_violation "units_unit_code_key")), d)
    else
      let row := {| u_id := next_uuid d; u_unit_name := unit_name;
                    u_unit_code := unit_code |} in
      (Return tt, set_units d (units d ++ [row]) (S (next_uuid d))).

(** [INSERT INTO student_documents (registration_number, document_type,
     file_url, file_name, file_size, uploaded_at) VALUES (..) RETURNING *],
    under the column types of the table: [VARCHAR(50)], [VARCHAR(50)],
    [TEXT], [VARCHAR(255)], [INTEGER].  The table has no foreign key. *)
Definition insert_student_document (registration_number document_type
           file_url file_name : string) (file_size uploaded_at : Z)
  : M db (list student_document) :=
  fun d =>
    if (50 <? String.length registration_number)%nat then
      (Throw (PostgresError (string_data_right_truncation 50)), d)
    else if (50 <? String.length document_type)%nat then
      (Throw (PostgresError (string_data_right_truncation 50)), d)
    else if (255 <? String.length file_name)%nat then
      (Throw (PostgresError (string_data_right_truncation 255)), d)
    else if negb ((-2147483648 <=? file_size)%Z && (file_size <=? 2147483647)%Z) then
      (Throw (PostgresError numeric_value_out_of_range), d)
    else
      let row := {| sd_id := next_uuid d;
                    sd_registration_number := registration_number;
                    sd_document_type := document_type;
                    sd_file_url := file_url; sd_file_name := file_name;
                    sd_file_size := file_size;
                    sd_uploaded_at := uploaded_at |} in
      (Return [row],
       set_student_documents d (student_documents d ++ [row]) (S (next_uuid d))).

(** [ORDER BY uploaded_at DESC]: rows with equal keys keep their order. *)
Fixpoint insert_by_uploaded_at (x : student_document) (l : list student_document)
  : list student_document :=
  match l with
  | [] => [x]
  | y :: l' => if (sd_uploaded_at y <? sd_uploaded_at x)%Z
               then x :: y :: l'
               else y :: insert_by_uploaded_at x l'
  end.

Definition order_by_uploaded_at_desc (l : list student_document)
  : list student_document :=
  fold_right insert_by_uploaded_at [] l.


(** [SELECT * FROM student_documents WHERE registration_number = $1
     ORDER BY uploaded_at DESC] *)
Definition select_documents (d : db) (registration_number : string)
  : list student_document :=
  order_by_uploaded_at_desc
    (filter (fun r => sd_registration_number r =? registration_number)
            (student_documents d)).

(** [SELECT fee_balance FROM fees WHERE student_id = $1] *)
Definition select_fees (d : db) (student_id : ident) : list fee :=
  filter (fun f => fee_student_id f =? student_id)%nat (fees d).

(** The rows of [allocated_units au JOIN units u ON au.unit_id = u.id]. *)
Record allocated_with_unit := {
  aw_row : allocated_unit;
  aw_unit_name : string;
  aw_unit_code : string
}.

(** [SELECT au.*, u.unit_name, u.unit_code FROM allocated_units au
     JOIN units u ON au.unit_id = u.id
     WHERE au.id = $1 AND au.student_id = $2 AND au.status = 'allocated'] *)
Definition eligible (id student_id : ident) (a : allocated_unit) : bool :=
  (au_id a =? id)%nat && (au_student_id a =? student_id)%nat &&
  alloc_status_eqb (au_status a) Allocated.

Definition joined (d : db) (a : allocated_unit) : list allocated_with_unit :=
  map (fun u => {| aw_row := a; aw_unit_name := u_unit_name u;
                   aw_unit_code := u_unit_code u |})
      (select_unit_by_id d (au_unit_id a)).

Definition select_allocated_for_student (d : db) (id student_id : ident)
  : list allocated_with_unit :=
  flat_map (fun a => if eligible id student_id a then joined d a else [])
           (allocated_units d).

(** A transaction, [sql.begin(callback)]: the callback runs on the
    connection; when it returns the work is committed, when it throws the
    work is rolled back and the exception is thrown on. *)
Definition sql_begin {A : Type} (callback : M db A) : M db A :=
  fun d =>
  match callback d with
  | (Return a, d') => (Return a, d')
  | (Throw e, _) => (Throw e, d)
  end.

End Db.
Import Db.

(* ------------------------------------------------------------------------- *)
(** ** Bulk allocation: [POST /students/registration/:regNumber/allocate-units] *)

Module Allocation.

(** The JSON body.  [unit_ids] is [None] when the field is missing or not an
    array; the other fields are [None] when missing.  [notes] is handed to
    the insert as it is and stored as NULL when missing. *)
Record body := {
  unit_ids : option (list ident);
  semester : option Z;
  academic_year : option string;
  notes : option string
}.

(** [{...insertedRows[0], unit_name, unit_code}] *)
Record allocation_view := {
  av_row : option allocated_unit;
  av_unit_name : string;
  av_unit_code : string
}.

Record summary := {
  total_requested : nat;
  successfully_allocated : nat;
  errors_count : nat
}.

Inductive response :=
| Failure (status : nat) (error details : string)
| Completed (student : Db.student) (allocated : list allocation_view)
            (sm : summary) (errors : option (list string)).

(** The two arrays the loop pushes to, and the connection. *)
Record loop_state := {
  conn : db;
  allocatedUnits : list allocation_view;
  errors : list string
}.

Definition push_error (s : loop_state) (msg : string) : loop_state :=
  {| conn := conn s; allocatedUnits := allocatedUnits s;
     errors := errors s ++ [msg] |}.

Definition not_found_message (unit_id : ident) : string :=
  "Unit with ID " ++ show_nat unit_id ++ " not found".

Definition already_allocated_message (unit_code : string) : string :=
  "Unit " ++ unit_code ++ " already allocated for this semester".

Definition failed_message (unit_id : ident) (e : error) : string :=
  "Failed to allocate unit " ++ show_nat unit_id ++ ": " ++ message e.

(** The row an accepted insert of the loop adds. *)
Definition new_row (studentId : ident) (sem : Z) (year : string)
           (nts : option string) (d : db) (unit_id : ident) : allocated_unit :=
  {| au_id := next_uuid d; au_student_id := studentId; au_unit_id := unit_id;
     au_semester := sem; au_academic_year := year; au_status := Allocated;
     au_notes := nts |}.

(** One iteration of [for (const unit_id of unit_ids)], with its
    [try]/[catch]. *)
Definition allocate_one (studentId : ident) (sem : Z) (year : string)
           (nts : option string) (s : loop_state) (unit_id : ident)
  : loop_state :=
  match select_unit_by_id (conn s) unit_id with
  | [] => push_error s (not_found_message unit_id)
  | unit :: _ =>
      match select_active_allocation (conn s) studentId unit_id sem year with
      | _ :: _ => push_error s (already_allocated_message (u_unit_code unit))
      | [] =>
          match insert_allocated_unit studentId unit_id sem year
                                      Allocated nts (conn s) with
          | (Return insertedRows, d') =>
              {| conn := d';
                 allocatedUnits := allocatedUnits s ++
                   [{| av_row := hd_error insertedRows;
                       av_unit_name := u_unit_name unit;
                       av_unit_code := u_unit_code unit |}];
                 errors := errors s |}
          | (Throw unitError, d') =>
              push_error {| conn := d'; allocatedUnits := allocatedUnits s;
                            errors := errors s |}
                         (failed_message unit_id unitError)
          end
      end
  end.

Definition allocate_loop (studentId : ident) (sem : Z) (year : string)
           (nts : option string) (ids : list ident) (s : loop_state)
  : loop_state :=
  fold_left (allocate_one studentId sem year nts) ids s.

Definition default {A : Type} (o : option A) (d : A) : A :=
  match o with Some a => a | None => d end.

(** The handler.  The loop runs inside [sql.begin]; its callback catches
    every exception of an iteration, a statement the database rejects
    included, so it always returns and the transaction is committed. *)
Definition allocate_units (d : db) (regNumber : string) (b : body)
  : response * db :=
  match select_student_by_registration d regNumber with
  | [] => (Failure 404 "Student not found"
             "No student found with the provided registration number", d)
  | studentRow :: _ =>
      let studentId := st_id studentRow in
      let sem := default (semester b) 1%Z in
      let year := default (academic_year b) "2024/2025" in
      match unit_ids b with
      | None | Some [] =>
          (Failure 400 "Missing required fields"
             "unit_ids array is required and cannot be empty", d)
      | Some ids =>
          match select_student_by_id d studentId with
          | [] => (Failure 404 "Student not found"
                     "No student found with the provided ID", d)
          | student :: _ =>
              match sql_begin
                      (fun txSql =>
                         let s := allocate_loop studentId sem year (notes b) ids
                                    {| conn := txSql; allocatedUnits := [];
                                       errors := [] |} in
                         (Return (allocatedUnits s, errors s), conn s)) d with
              | (Return (allocated, errs), d') =>
                  (Completed student allocated
                     {| total_requested := length ids;
                        successfully_allocated := length allocated;
                        errors_count := length errs |}
                     (match errs with [] => None | _ => Some errs end), d')
              | (Throw txError, d') =>
                  (Failure 500 "Failed to allocate units" (message txError), d')
              end
          end
      end
  end.

(** *** Vocabulary for the order of the response

    An iteration leaves one entry, either in [allocatedUnits] or in
    [errors].  A list of such entries in the order of [unit_ids] splits
    into the two arrays of the response. *)
Definition entry : Type := allocation_view + string.

Fixpoint lefts (os : list entry) : list allocation_view :=
  match os with
  | [] => []
  | inl v :: r => v :: lefts r
  | inr _ :: r => lefts r
  end.

Fixpoint rights (os : list entry) : list string :=
  match os with
  | [] => []
  | inl _ :: r => rights r
  | inr e :: r => e :: rights r
  end.

(** The entry [o] is the one of the requested [unit_id]: an allocation of
    that unit in status [Allocated], or one of the three per-item errors
    for it. *)
Definition concerns (us : list unit_row) (unit_id : ident) (o : entry) : Prop :=
  match o with
  | inl v => exists row, av_row v = Some row /\ au_unit_id row = unit_id /\
                         au_status row = Allocated
  | inr e => e = not_found_message unit_id \/
             (exists unit, In unit us /\ u_id unit = unit_id /\
                           e = already_allocated_message (u_unit_code unit)) \/
             (exists err, e = failed_message unit_id err)
  end.

End Allocation.

(* ------------------------------------------------------------------------- *)
(** ** Registering an allocated unit:
       [POST /students/registration/:regNumber/register-allocated-unit] *)

Module Registration.

(** The JSON body; [None] is a missing or falsy [allocated_unit_id]. *)
Record body := { allocated_unit_id : option ident }.

Inductive response :=
| Failure (status : nat) (error details : string)
| Success (msg : string) (registered_unit : option Db.registered_unit)
          (student_registration : string) (allocated_unit_updated : bool).

(** The statements the transaction callback issues on the connection handed
    to it by [sql.begin]. *)
Record connection := {
  exec_update_status : ident -> alloc_status -> M db unit;
  exec_insert_registered : ident -> string -> string -> string ->
                           M db (list Db.registered_unit)
}.

(** The connection of [src/db.js]. *)
Definition postgres : connection :=
  {| exec_update_status := update_allocated_status;
     exec_insert_registered := insert_registered_unit |}.

(** The callback of [sql.begin]: both writes, in the order of the source. *)
Definition register_transaction (sql : connection) (allocated_unit_id : ident)
           (student : Db.student) (allocatedUnit : allocated_with_unit)
  : M db (option Db.registered_unit) :=
  (_ <- exec_update_status sql allocated_unit_id Registered ;;
   registeredRows <- exec_insert_registered sql (st_id student)
                       (aw_unit_name allocatedUnit)
                       (aw_unit_code allocatedUnit) "registered" ;;
   ret (hd_error registeredRows))%js.

Definition register_allocated_unit (sql : connection) (d : db)
           (regNumber : string) (b : body) : response * db :=
  match allocated_unit_id b with
  | None => (Failure 400 "Missing required fields"
               "allocated_unit_id is required", d)
  | Some id =>
      match select_student_by_registration d regNumber with
      | [] => (Failure 404 "Student not found"
                 "No student found with the provided registration number", d)
      | student :: _ =>
          match select_allocated_for_student d id (st_id student) with
          | [] => (Failure 404 "Allocated unit not found"
                     "No allocated unit found with the provided ID for this student, or unit is already registered/cancelled", d)
          | allocatedUnit :: _ =>
              match select_registered d (st_id student)
                                      (aw_unit_code allocatedUnit) with
              | _ :: _ => (Failure 409 "Unit already registered"
                             "Student is already registered for this unit", d)
              | [] =>
                  match sql_begin (register_transaction sql id student
                                                        allocatedUnit) d with
                  | (Return registeredUnit, d') =>
                      (Success "Unit registered successfully" registeredUnit
                               (st_registration_number student) true, d')
                  | (Throw txError, d') =>
                      (Failure 500 "Failed to register allocated unit"
                               (message txError), d')
                  end
              end
          end
      end
  end.

End Registration.

(* ------------------------------------------------------------------------- *)
(** ** Legacy direct registration: [POST /units/register] *)

Module Legacy.

Record body := {
  student_reg : option string;
  unit_name : option string;
  unit_code : option string;
  status : option string
}.

Inductive response :=
| Failure (status : nat) (error details : string)
| Success (msg : string) (registered_unit : Db.registered_unit)
          (student_registration : string).

(** The handler issues each statement through [pool.query], outside any
    transaction: a statement that has run stays applied when a later one
    fails or the handler returns early. *)
Definition units_register (d : db) (b : body) : response * db :=
  match student_reg b, unit_name b, unit_code b with
  | Some student_reg, Some unit_name, Some unit_code =>
      if (student_reg =? "") || (unit_name =? "") || (unit_code =? "") then
        (Failure 400 "Missing required fields"
           "Student registration number, unit name, and unit code are required", d)
      else
        let status := Allocation.default (status b) "active" in
        match select_student_by_registration d student_reg with
        | [] => (Failure 404 "Student not found"
                   "No student found with the provided registration number", d)
        | studentRow :: _ =>
            let student_id := st_id studentRow in
            let created :=
              match select_unit_by_code d unit_code with
              | [] => insert_unit unit_name unit_code d
              | _ :: _ => (Return tt, d)
              end in
            match created with
            | (Throw error, d1) =>
                (Failure 500 "Failed to register unit" (message error), d1)
            | (Return _, d1) =>
                match select_registered d1 student_id unit_code with
                | _ :: _ => (Failure 409 "Unit already registered"
                               "Student is already registered for this unit", d1)
                | [] =>
                    match insert_registered_unit student_id unit_name
                                                 unit_code status d1 with
                    | (Throw error, d2) =>
                        (Failure 500 "Failed to register unit" (message error), d2)
                    | (Return [], d2) =>
                        (Failure 500 "Failed to register unit"
                                 "Failed to register unit", d2)
                    | (Return (row :: _), d2) =>
                        (Success "Unit registered successfully for student"
                                 row student_reg, d2)
                    end
                end
            end
        end
  | _, _, _ =>
      (Failure 400 "Missing required fields"
         "Student registration number, unit name, and unit code are required", d)
  end.

End Legacy.

(* ------------------------------------------------------------------------- *)
(** ** Document upload: [handleFileUpload], [saveFileLocally] and the routes *)

Module Upload.

Record File := {
  f_name : string;
  f_size : Z;
  f_type : string;
  f_bytes : list Byte.byte
}.

(** Everything a request can change: the database, the objects of the
    bucket [student-documents] by key, and the files below [./uploads] by
    relative path (as written: the dot segments [path.join] would resolve
    are not interpreted). *)
Record world := {
  database : db;
  bucket : list (string * list Byte.byte);
  uploads : list (string * list Byte.byte)
}.

Definition with_database (w : world) (d : db) : world :=
  {| database := d; bucket := bucket w; uploads := uploads w |}.

(** What the request does not decide: the process environment, the clock,
    and whether each call to the storage service or the file system works.
    A storage call that returns [{ error }] and one that throws are both a
    [Throw] here; the handler treats them alike on the upload path. *)
Record environment := {
  SUPABASE_URL : option string;
  SUPABASE_SERVICE_ROLE_KEY : option string;
  Date_now : Z;
  uploaded_at_now : Z;
  listBuckets : outcome (list string);
  createBucket : outcome unit;
  storage_upload : outcome unit;
  getPublicUrl : string -> string;
  storage_remove : outcome unit;
  fs_mkdir : outcome unit;
  fs_writeFile : outcome unit;
  fs_unlink : outcome unit
}.

(** The statement [handleFileUpload] sends through [pool.query]. *)
Record pool := {
  query_insert_document : string -> string -> string -> string -> Z -> Z ->
                          M db (list student_document)
}.

(** The pool of [src/db.js]. *)
Definition postgres_pool : pool :=
  {| query_insert_document := insert_student_document |}.

Inductive storage_method := supabase | local | unknown.

Record upload_data := {
  id : ident;
  registrationNumber : string;
  documentType : string;
  fileUrl : string;
  fileName : string;
  fileSize : Z;
  uploadedAt : Z;
  storageMethod : storage_method
}.

(** [file.name.split('.').pop()]: the text after the last dot, the whole
    name when it has none. *)
Fixpoint split_pop (acc s : string) : string :=
  match s with
  | EmptyString => acc
  | String c r => if Ascii.eqb c "."%char then split_pop "" r
                  else split_pop (acc ++ String c "") r
  end.

Definition key_of (env : environment) (registrationNumber : string)
           (file : File) (documentType : string) : string :=
  documentType ++ "/" ++ registrationNumber ++ "_" ++ show_Z (Date_now env) ++
  "." ++ split_pop "" (f_name file).

Definition isSupabaseConfigured (env : environment) : bool :=
  truthy (SUPABASE_URL env) && truthy (SUPABASE_SERVICE_ROLE_KEY env) &&
  negb (match SUPABASE_URL env with
        | Some u => u =? "your_supabase_url"
        | None => false
        end).

Definition remove_key {A : Type} (k : string) (l : list (string * A))
  : list (string * A) :=
  filter (fun kv => negb (fst kv =? k)) l.

Definition has_key {A : Type} (k : string) (l : list (string * A)) : bool :=
  existsb (fun kv => fst kv =? k) l.

Definition lift {A : Type} (o : outcome A) : M world A := fun w => (o, w).

Definition rethrow_as {A : Type} (prefix : string) (o : outcome A) : M world A :=
  fun w => match o with
           | Return a => (Return a, w)
           | Throw e => (Throw (Error (prefix ++ message e)), w)
           end.

(** The body of the inner [try]: the upload to the storage service. *)
Definition supabase_upload (env : environment) (file : File) (fileName : string)
  : M world string :=
  (buckets <- rethrow_as "Bucket access error: " (listBuckets env) ;;
   _ <- (if existsb (fun b => b =? "student-documents") buckets
         then ret tt
         else rethrow_as "Bucket creation failed: " (createBucket env)) ;;
   _ <- (fun w =>
           if has_key fileName (bucket w) then
             (Throw (Error "Upload failed: The resource already exists"), w)
           else
             match storage_upload env with
             | Throw e => (Throw (Error ("Upload failed: " ++ message e)), w)
             | Return _ =>
                 (Return tt,
                  {| database := database w;
                     bucket := bucket w ++ [(fileName, f_bytes file)];
                     uploads := uploads w |})
             end) ;;
   ret (getPublicUrl env fileName))%js.

Definition saveFileLocally (env : environment) (file : File) (fileName : string)
  : M world string :=
  (_ <- rethrow_as "Local storage failed: " (fs_mkdir env) ;;
   _ <- (fun w =>
           match fs_writeFile env with
           | Throw e => (Throw (Error ("Local storage failed: " ++ message e)), w)
           | Return _ =>
               (Return tt,
                {| database := database w; bucket := bucket w;
                   uploads := remove_key fileName (uploads w) ++
                              [(fileName, f_bytes file)] |})
           end) ;;
   ret ("/uploads/" ++ fileName))%js.

(** The storage step of [handleFileUpload]: the service when configured,
    the local directory when it is not or when the service path threw. *)
Definition store (env : environment) (file : File) (fileName : string)
  : M world (string * storage_method) :=
  fun w =>
    if isSupabaseConfigured env then
      match supabase_upload env file fileName w with
      | (Return url, w') => (Return (url, supabase), w')
      | (Throw supabaseError, w') =>
          (fileUrl <- saveFileLocally env file fileName ;; ret (fileUrl, local))%js w'
      end
    else
      (fileUrl <- saveFileLocally env file fileName ;; ret (fileUrl, local))%js w.

(** The clean-up of the branch [rows.length === 0]; what the removal
    returns or throws is dropped. *)
Definition cleanup (env : environment) (method : storage_method)
           (fileName : string) : M world unit :=
  fun w =>
    match method with
    | supabase =>
        match storage_remove env with
        | Return _ => (Return tt,
                       {| database := database w;
                          bucket := remove_key fileName (bucket w);
                          uploads := uploads w |})
        | Throw cleanupError => (Return tt, w)
        end
    | local =>
        match fs_unlink env with
        | Return _ => (Return tt,
                       {| database := database w; bucket := bucket w;
                          uploads := remove_key fileName (uploads w) |})
        | Throw cleanupError => (Return tt, w)
        end
    | unknown => (Return tt, w)
    end.

Definition query (q : M db (list student_document))
  : M world (list student_document) :=
  fun w => match q (database w) with
           | (o, d') => (o, with_database w d')
           end.

(** [handleFileUpload].  The outer [catch] logs and throws the same error
    on, so an exception of any step is the exception of the call. *)
Definition handleFileUpload (env : environment) (pl : pool)
           (registrationNumber : string) (file : File) (documentType : string)
  : M world upload_data :=
  let fileName := key_of env registrationNumber file documentType in
  (stored <- store env file fileName ;;
   rows <- query (query_insert_document pl registrationNumber documentType
                    (fst stored) (f_name file) (f_size file)
                    (uploaded_at_now env)) ;;
   match rows with
   | [] =>
       _ <- cleanup env (snd stored) fileName ;;
       throw (Error "Database insertion failed")
   | row :: _ =>
       ret {| id := sd_id row;
              registrationNumber := registrationNumber;
              documentType := documentType;
              fileUrl := fst stored;
              fileName := f_name file;
              fileSize := f_size file;
              uploadedAt := sd_uploaded_at row;
              storageMethod := snd stored |}
   end)%js.

(** *** The routes *)

Inductive form_value := Text (s : string) | Blob (f : File).

Definition FormData := list (string * form_value).

(** [formData.get(name)] *)
Definition get (fd : FormData) (name : string) : option form_value :=
  option_map snd (find (fun kv => fst kv =? name) fd).

Definition value_truthy (v : option form_value) : bool :=
  match v with
  | Some (Text s) => negb (s =? "")
  | Some (Blob _) => true
  | None => false
  end.

(** [formData.get(a) || formData.get(b) || ...] *)
Fixpoint first_truthy (fd : FormData) (names : list string) : option form_value :=
  match names with
  | [] => None
  | [n] => get fd n
  | n :: rest => if value_truthy (get fd n) then get fd n
                 else first_truthy fd rest
  end.

Definition is_space (c : ascii) : bool :=
  let n := nat_of_ascii c in ((9 <=? n)%nat && (n <=? 13)%nat) || (n =? 32)%nat.

Fixpoint trim_start (s : string) : string :=
  match s with
  | String c r => if is_space c then trim_start r else s
  | EmptyString => EmptyString
  end.

Fixpoint trim_end (s : string) : string :=
  match s with
  | EmptyString => EmptyString
  | String c r =>
      match trim_end r with
      | EmptyString => if is_space c then EmptyString else String c EmptyString
      | r' => String c r'
      end
  end.

(** [String.prototype.trim] on the ASCII white space characters. *)
Definition trim (s : string) : string := trim_end (trim_start s).

(** What distinguishes the six upload routes of the source. *)
Record route := {
  registration_fields : list string;
  file_fields : list string;
  rejects_empty : bool;
  rejects_small : bool;
  document_type : string;
  file_required : string;
  success_message : string;
  failure_message : string
}.

Definition exam_card : route :=
  {| registration_fields :=
       ["registrationNumber"; "registration_number"; "regNumber"; "reg_number"];
     file_fields := ["file"; "examCard"; "exam_card"; "document"];
     rejects_empty := false; rejects_small := true;
     document_type := "exam-card";
     file_required := "File is required";
     success_message := "Exam card uploaded successfully";
     failure_message := "Failed to upload exam card" |}.



Definition fees_receipt : route :=
  {| registration_fields := ["registrationNumber"; "registration_number"; "regNumber"];
     file_fields := ["file"; "feesReceipt"; "fees_receipt"; "document"];
     rejects_empty := true; rejects_small := false;
     document_type := "fees-receipt";
     file_required := "Valid file is required";
     success_message := "Fees receipt uploaded successfully";
     failure_message := "Failed to upload fees receipt" |}.

Definition results : route :=
  {| registration_fields := ["registrationNumber"; "registration_number"; "regNumber"];
     file_fields := ["file"; "results"; "result"; "document"];
     rejects_empty := true; rejects_small := false;
     document_type := "results";
     file_required := "Valid file is required";
     success_message := "Results uploaded successfully";
     failure_message := "Failed to upload results" |}.



Inductive response :=
| Failure (status : nat) (error : string) (details : option string)
| Created (status : nat) (msg : string) (data : upload_data).

(** A route; [None] is a body that does not parse as form data.  The
    diagnostic fields of the error bodies are left out. *)
Definition post (r : route) (env : environment) (pl : pool)
           (formData : option FormData) (w : world) : response * world :=
  match formData with
  | None => (Failure 400 "Malformed FormData request" None, w)
  | Some formData =>
      match first_truthy formData (registration_fields r) with
      | Some (Text registrationNumber) =>
          if registrationNumber =? "" then
            (Failure 400 "Registration number is required" None, w)
          else
            match first_truthy formData (file_fields r) with
            | Some (Blob file) =>
                if rejects_empty r && (f_size file =? 0)%Z then
                  (Failure 400 (file_required r) None, w)
                else if (10 * 1024 * 1024 <? f_size file)%Z then
                  (Failure 400 "File size must be less than 10MB" None, w)
                else if rejects_small r && (f_size file <? 1024)%Z then
                  (Failure 400 "File appears to be empty or too small" None, w)
                else
                  match handleFileUpload env pl (trim registrationNumber) file
                                         (document_type r) w with
                  | (Return result, w') =>
                      (Created 201 (success_message r) result, w')
                  | (Throw error, w') =>
                      (Failure 500 (failure_message r) (Some (message error)), w')
                  end
            | _ => (Failure 400 (file_required r) None, w)
            end
      | _ => (Failure 400 "Registration number is required" None, w)
      end
  end.

(** [GET /documents/:registrationNumber] *)
Definition get_documents (w : world) (registrationNumber : string)
  : list student_document * nat :=
  let rows := select_documents (database w) registrationNumber in
  (rows, length rows).

End Upload.

(* ------------------------------------------------------------------------- *)
(** ** Exam card retrieval: [GET /students/:id/exam-card] *)

Module ExamCard.

(** A JavaScript number, as far as the fee gate needs it. *)
Inductive number := NaN | Finite (q : Q).

(** [parseFloat] of the text of a [numeric] column. *)
Definition parseFloat (n : numeric) : number :=
  match n with
  | NumNaN => NaN
  | Num q => Finite q
  end.

(** [x || 0] *)
Definition or_zero (x : number) : Q :=
  match x with
  | NaN => 0%Q
  | Finite q => if Qeq_bool q 0 then 0%Q else q
  end.

Definition positive (q : Q) : bool := (0 <? Qnum q)%Z.

Section Handler.

(** The type of the responses and the part of the handler that follows the
    fee gate (the look-up of the document and of the legacy table), which
    the handler reaches with the student row and the fee status. *)
Variable file_response : Type.
Variable serve_exam_card : db -> Db.student -> string -> file_response.

Inductive response :=
| NotFound (status : nat) (error : string)
| Forbidden (status : nat) (error : string) (fee_balance : Q)
| Continued (r : file_response).

Definition get_exam_card (d : db) (studentId : ident) : response :=
  match select_student_by_id d studentId with
  | [] => NotFound 404 "Student not found"
  | student :: _ =>
      match select_fees d studentId with
      | [] => Continued (serve_exam_card d student "no_record")
      | feeRow :: _ =>
          let feeBalance := or_zero (parseFloat (fee_balance feeRow)) in
          if positive feeBalance then
            Forbidden 403
              "Please complete your fee payment to download your exam card."
              feeBalance
          else Continued (serve_exam_card d student "paid")
      end
  end.

End Handler.

End ExamCard.

(* ------------------------------------------------------------------------- *)
(** ** The pairing of allocations and registrations *)

Module Pairing.

(** The unit [unit_id] of the catalogue carries the code [code]: what the
    join of an allocation with [units] reads. *)
Definition unit_has_code (d : db) (unit_id : ident) (code : string) : Prop :=
  exists u, In u (units d) /\ u_id u = unit_id /\ u_unit_code u = code.

(** A registration in status registered has an allocation in status
    registered of the same student and unit. *)
Definition registrations_backed (d : db) : Prop :=
  forall r, In r (registered_units d) -> ru_status r = "registered" ->
    exists a, In a (allocated_units d) /\
              au_student_id a = ru_student_id r /\
              au_status a = Registered /\
              unit_has_code d (au_unit_id a) (ru_unit_code r).

(** An allocation in status registered has a registration in status
    registered of the same student and unit. *)
Definition allocations_backed (d : db) : Prop :=
  forall a, In a (allocated_units d) -> au_status a = Registered ->
    exists r, In r (registered_units d) /\
              ru_student_id r = au_student_id a /\
              ru_status r = "registered" /\
              unit_has_code d (au_unit_id a) (ru_unit_code r).

Definition paired (d : db) : Prop :=
  registrations_backed d /\ allocations_backed d.

(** The primary key of [allocated_units], and the freshness of the
    identifiers still to be generated. *)
Definition well_formed (d : db) : Prop :=
  NoDup (map au_id (allocated_units d)) /\
  (forall a, In a (allocated_units d) -> au_id a < next_uuid d).

(** The store once allocation [id] is registered for the student: both
    writes of the transaction. *)
Definition registered_store (d : db) (id student_id : ident)
           (unit_name unit_code : string) : db :=
  set_registered_units
    (set_allocated_units d
       (map (fun a => if (au_id a =? id)%nat then with_status a Registered else a)
            (allocated_units d))
       (next_uuid d))
    (registered_units d ++
       [{| ru_id := next_uuid d; ru_student_id := student_id;
           ru_unit_name := unit_name; ru_unit_code := unit_code;
           ru_status := "registered" |}])
    (S (next_uuid d)).

(** The three operations that write the two tables. *)
Inductive operation :=
| AllocateUnits (regNumber : string) (b : Allocation.body)
| RegisterAllocatedUnit (regNumber : string) (b : Registration.body)
| UnitsRegister (b : Legacy.body).

Definition run (d : db) (op : operation) : db :=
  match op with
  | AllocateUnits regNumber b => snd (Allocation.allocate_units d regNumber b)
  | RegisterAllocatedUnit regNumber b =>
      snd (Registration.register_allocated_unit Registration.postgres d regNumber b)
  | UnitsRegister b => snd (Legacy.units_register d b)
  end.

(** A direct registration that asks for the status registered. *)
Definition registers_directly (op : operation) : Prop :=
  match op with
  | UnitsRegister b => Legacy.status b = Some "registered"
  | _ => False
  end.

End Pairing.

(* ------------------------------------------------------------------------- *)
(** ** Sample data *)

Module Sample.

Definition amina : student :=
  {| st_id := 1; st_registration_number := "CS/001/2021"; st_name := "Amina" |}.

Definition algorithms : unit_row :=
  {| u_id := 7; u_unit_name := "Algorithms"; u_unit_code := "CS101" |}.

Definition databases : unit_row :=
  {| u_id := 8; u_unit_name := "Databases"; u_unit_code := "CS102" |}.

Definition allocation (st : alloc_status) : allocated_unit :=
  {| au_id := 20; au_student_id := 1; au_unit_id := 7; au_semester := 1%Z;
     au_academic_year := "2024/2025"; au_status := st; au_notes := None |}.

(** One student, two units, and one allocation of the first unit in the
    given status. *)
Definition campus (st : alloc_status) : db :=
  {| students := [amina]; units := [algorithms; databases];
     allocated_units := [allocation st]; registered_units := [];
     student_documents := []; fees := []; next_uuid := 100 |}.

Definition request (ids : list ident) : Allocation.body :=
  {| Allocation.unit_ids := Some ids; Allocation.semester := Some 1%Z;
     Allocation.academic_year := None; Allocation.notes := None |}.

Definition direct_registration (status : option string) : Legacy.body :=
  {| Legacy.student_reg := Some "CS/001/2021";
     Legacy.unit_name := Some "Databases";
     Legacy.unit_code := Some "CS102";
     Legacy.status := status |}.

(** A file of two kibibytes. *)
Definition card : Upload.File :=
  {| Upload.f_name := "card.final.pdf"; Upload.f_size := 2048%Z;
     Upload.f_type := "application/pdf"; Upload.f_bytes := [] |}.

Definition public_url (key : string) : string :=
  "https://project.supabase.co/storage/v1/object/public/student-documents/" ++ key.

(** A process with the given storage settings in which every call to the
    service and to the file system works. *)
Definition process (url key : option string) : Upload.environment :=
  {| Upload.SUPABASE_URL := url;
     Upload.SUPABASE_SERVICE_ROLE_KEY := key;
     Upload.Date_now := 1700000000000%Z;
     Upload.uploaded_at_now := 1700000000005%Z;
     Upload.listBuckets := Return ["student-documents"];
     Upload.createBucket := Return tt;
     Upload.storage_upload := Return tt;
     Upload.getPublicUrl := public_url;
     Upload.storage_remove := Return tt;
     Upload.fs_mkdir := Return tt;
     Upload.fs_writeFile := Return tt;
     Upload.fs_unlink := Return tt |}.

(** No storage service is configured. *)
Definition offline : Upload.environment := process None None.


(** A store with no student at all, and nothing stored. *)
Definition empty_world : Upload.world :=
  {| Upload.database :=
       {| students := []; units := []; allocated_units := [];
          registered_units := []; student_documents := []; fees := [];
          next_uuid := 1 |};
     Upload.bucket := []; Upload.uploads := [] |}.

(** A registration number of fifty-one characters. *)
Definition long_registration : string :=
  "SCHOOL-OF-COMPUTING/BSC-COMPUTER-SCIENCE/00001/2021".

Definition form (registrationNumber : string) : Upload.FormData :=
  [("registrationNumber", Upload.Text registrationNumber);
   ("file", Upload.Blob card)].



(** A stand-in for the rest of the exam-card handler: it serves the URL
    of the first document of the store, if any. *)
Definition serve (d : db) (st : student) (feeStatus : string) : string :=
  match student_documents d with
  | doc :: _ => sd_file_url doc
  | [] => feeStatus
  end.

End Sample.

(* ------------------------------------------------------------------------- *)
(** ** Vocabulary of the further properties *)

Module Keys.

(** The pair the two registration handlers look up before they insert. *)
Definition registration_key (r : registered_unit) : ident * string :=
  (ru_student_id r, ru_unit_code r).

Definition registered_once (d : db) : Prop :=
  NoDup (map registration_key (registered_units d)).

(** A file name, or an extension, without a dot. *)
Fixpoint no_dot (s : string) : Prop :=
  match s with
  | EmptyString => True
  | String c r => c <> "."%char /\ no_dot r
  end.

End Keys.

(* ------------------------------------------------------------------------- *)
(** ** The other two allocation routes *)

Module AllocationRoutes.
Import Allocation.







End AllocationRoutes.

(* ------------------------------------------------------------------------- *)
(** ** Listings and the catalogue of units *)

Module Listings.

(** [ORDER BY] on a key compared by [le]. *)
Fixpoint insert_by {A : Type} (le : A -> A -> bool) (x : A) (l : list A) : list A :=
  match l with
  | [] => [x]
  | y :: l' => if le x y then x :: y :: l' else y :: insert_by le x l'
  end.

Definition order_by {A : Type} (le : A -> A -> bool) (l : list A) : list A :=
  fold_right (insert_by le) [] l.

Section Collation.

(** The order of the database on text (its collation), as [<=]. *)
Variable text_le : string -> string -> bool.





(** [GET /students/:id/registered-units]:
    [SELECT * FROM registered_units WHERE student_id = $1 ORDER BY unit_code] *)
Definition get_registered_units (d : db) (studentId : ident)
  : list registered_unit :=
  order_by (fun a b => text_le (ru_unit_code a) (ru_unit_code b))
           (filter (fun r => (ru_student_id r =? studentId)%nat)
                   (registered_units d)).

(** [GET /units]: [SELECT * FROM units ORDER BY unit_code] *)
Definition get_units (d : db) : list unit_row :=
  order_by (fun a b => text_le (u_unit_code a) (u_unit_code b)) (units d).

End Collation.

(** [INSERT INTO units (unit_name, unit_code) VALUES ($1, $2) RETURNING *] *)
Definition insert_unit_returning (unit_name unit_code : string)
  : M db (list unit_row) :=
  fun d =>
    if existsb (fun u => u_unit_code u =? unit_code) (units d) then
      (Throw (PostgresError (unique_violation "units_unit_code_key")), d)
    else
      let row := {| u_id := next_uuid d; u_unit_name := unit_name;
                    u_unit_code := unit_code |} in
      (Return [row], set_units d (units d ++ [row]) (S (next_uuid d))).

Record unit_body := {
  unit_name : option string;
  unit_code : option string
}.

Inductive unit_response :=
| Refused (status : nat) (error details : string)
| UnitCreated (msg : string) (unit : option unit_row).

(** [POST /units] *)
Definition create_unit (d : db) (b : unit_body) : unit_response * db :=
  if negb (truthy (unit_name b)) || negb (truthy (unit_code b)) then
    (Refused 400 "Missing required fields"
       "Unit name and unit code are required", d)
  else
    let name := Allocation.default (unit_name b) "" in
    let code := Allocation.default (unit_code b) "" in
    match select_unit_by_code d code with
    | _ :: _ => (Refused 409 "Unit already exists"
                   "A unit with this code already exists", d)
    | [] =>
        match insert_unit_returning name code d with
        | (Return rows, d') =>
            (UnitCreated "Unit created successfully" (hd_error rows), d')
        | (Throw error, d') =>
            (Refused 500 "Failed to create unit" (message error), d')
        end
    end.

Inductive documents_response :=
| NoSuchStudent (status : nat) (error details : string)
| Documents (data : list student_document) (count : nat)
            (student_id : ident) (registration_number : string).

(** [GET /students/:id/documents] *)
Definition get_student_documents (d : db) (studentId : ident)
  : documents_response :=
  match select_student_by_id d studentId with
  | [] => NoSuchStudent 404 "Student not found"
            "No student found with the provided ID"
  | student :: _ =>
      let registrationNumber := st_registration_number student in
      let rows := select_documents d registrationNumber in
      Documents rows (length rows) studentId registrationNumber
  end.

End Listings.

(* ------------------------------------------------------------------------- *)
(** ** Uploads by student id and the legacy tables they also fill:
       [POST /students/:id/upload-fee-statement],
       [POST /students/:id/upload-fee-receipt],
       [POST /students/:id/upload-results],
       [GET /students/:id/fee-statement], [GET /students/:id/fee-receipt] *)

Module StudentFiles.

(** A field of the parsed form as the validator receives it: absent, one
    value, or the values of a repeated field. *)
Inductive field :=
| Missing
| One (v : Upload.form_value)
| Many (vs : list Upload.form_value).

Record form := {
  value_registrationNumber : field;
  value_file : field
}.

Inductive validation :=
| Invalid (status : nat) (error : string)
| Valid (registrationNumber : string) (file : Upload.File).

(** [fileUploadValidator]: the callback given to [validator('form', ..)]. *)
Definition fileUploadValidator (value : form) : validation :=
  match value_registrationNumber value with
  | One (Upload.Text registrationNumber) =>
      if registrationNumber =? "" then
        Invalid 400 "Registration number is required"
      else
        match value_file value with
        | One (Upload.Blob file) =>
            if (10 * 1024 * 1024 <? Upload.f_size file)%Z then
              Invalid 400 "File size must be less than 10MB"
            else Valid (Upload.trim registrationNumber) file
        | _ => Invalid 400 "File is required"
        end
  | _ => Invalid 400 "Registration number is required"
  end.

(** A row of [finance]. *)
Record finance_row := {
  fin_id : ident;
  fin_student_id : ident;
  fin_statement : option string;
  fin_statement_url : option string;
  fin_receipt_url : option string;
  fin_created_at : Z
}.

(** The JSON stored in [results.result_data]. *)
Record result_data := {
  rd_file_url : string;
  rd_file_name : string;
  rd_file_size : Z;
  rd_uploaded_at : Z
}.

(** A row of [results]; [semester] is [integer NOT NULL]. *)
Record result_row := {
  res_id : ident;
  res_student_id : ident;
  res_semester : Z;
  res_result_data : result_data;
  res_created_at : Z
}.

(** The store of these routes: the store of the uploads and the two legacy
    tables. *)
Record store := {
  site : Upload.world;
  finance : list finance_row;
  results : list result_row
}.

Definition on_site {A : Type} (c : M Upload.world A) : M store A :=
  fun s => match c (site s) with
           | (o, w') => (o, {| site := w'; finance := finance s;
                               results := results s |})
           end.

(** The store after one more identifier was drawn. *)
Definition drawn (w : Upload.world) : Upload.world :=
  Upload.with_database w
    (set_units (Upload.database w) (units (Upload.database w))
               (S (next_uuid (Upload.database w)))).

Definition student_known (s : store) (student_id : ident) : bool :=
  existsb (fun st => st_id st =? student_id)%nat
          (students (Upload.database (site s))).

(** [INSERT INTO finance (student_id, statement, statement_url, receipt_url)
     VALUES (..)], the columns a route does not name being NULL;
    [created_at] is the time of the database, [now]. *)
Definition insert_finance (now : Z) (student_id : ident)
           (statement statement_url receipt_url : option string)
  : M store unit :=
  fun s =>
    if negb (student_known s student_id) then
      (Throw (PostgresError (foreign_key_violation "finance_student_id_fkey")), s)
    else
      let row := {| fin_id := next_uuid (Upload.database (site s));
                    fin_student_id := student_id;
                    fin_statement := statement;
                    fin_statement_url := statement_url;
                    fin_receipt_url := receipt_url;
                    fin_created_at := now |} in
      (Return tt, {| site := drawn (site s); finance := finance s ++ [row];
                     results := results s |}).

Definition is_digit (c : ascii) : bool :=
  let n := nat_of_ascii c in (48 <=? n)%nat && (n <=? 57)%nat.

Fixpoint digits (acc : Z) (s : string) : option Z :=
  match s with
  | EmptyString => Some acc
  | String c r =>
      if is_digit c
      then digits (10 * acc + Z.of_nat (nat_of_ascii c - 48)) r
      else None
  end.

Definition quoted (s : string) : string :=
  String (ascii_of_nat 34) s ++ String (ascii_of_nat 34) "".

(** The conversion of a text parameter to [integer] by the database: a
    decimal number with an optional sign between optional white space, in
    the range of the type. *)
Definition int4_in (s : string) : outcome Z :=
  let parsed :=
    match Upload.trim s with
    | EmptyString => None
    | String c r =>
        if Ascii.eqb c "-"%char then
          (if r =? "" then None else option_map Z.opp (digits 0 r))
        else if Ascii.eqb c "+"%char then
          (if r =? "" then None else digits 0 r)
        else digits 0 (String c r)
    end in
  match parsed with
  | None => Throw (Error ("invalid input syntax for type integer: " ++ quoted s))
  | Some z =>
      if ((-2147483648 <=? z)%Z && (z <=? 2147483647)%Z)
      then Return z
      else Throw (PostgresError numeric_value_out_of_range)
  end.

(** [INSERT INTO results (student_id, semester, result_data)
     VALUES ($1, $2, $3) RETURNING *] *)
Definition insert_result (now : Z) (student_id : ident) (semester : string)
           (data : result_data) : M store (list result_row) :=
  fun s =>
    match int4_in semester with
    | Throw e => (Throw e, s)
    | Return sem =>
        if negb (student_known s student_id) then
          (Throw (PostgresError (foreign_key_violation "results_student_id_fkey")), s)
        else
          let row := {| res_id := next_uuid (Upload.database (site s));
                        res_student_id := student_id;
                        res_semester := sem;
                        res_result_data := data;
                        res_created_at := now |} in
          (Return [row], {| site := drawn (site s); finance := finance s;
                            results := results s ++ [row] |})
    end.

Inductive response :=
| Rejected (status : nat) (error : string) (details : option string)
| Uploaded (msg url file_name : string) (data : Upload.upload_data)
| ResultsUploaded (msg : string) (result : option result_row)
                  (file_url : string) (data : Upload.upload_data).

Section Routes.

(** The process, the pool behind [handleFileUpload], and the time of the
    database when the legacy row is inserted. *)
Variable env : Upload.environment.
Variable pl : Upload.pool.
Variable now : Z.

(** [POST /students/:id/upload-fee-statement] *)
Definition upload_fee_statement (studentId : ident) (value : form) (s : store)
  : response * store :=
  match fileUploadValidator value with
  | Invalid status error => (Rejected status error None, s)
  | Valid registrationNumber file =>
      match select_student_by_id (Upload.database (site s)) studentId with
      | [] => (Rejected 404 "Student not found" None, s)
      | _ :: _ =>
          match (result <- on_site (Upload.handleFileUpload env pl
                                      registrationNumber file "fees-statement") ;;
                 _ <- insert_finance now studentId (Some "Fee Statement")
                        (Some (Upload.fileUrl result)) None ;;
                 ret result)%js s with
          | (Return result, s') =>
              (Uploaded "Fee statement uploaded successfully"
                        (Upload.fileUrl result) (Upload.f_name file) result, s')
          | (Throw error, s') =>
              (Rejected 500 "Failed to upload fee statement"
                        (Some (message error)), s')
          end
      end
  end.

(** [POST /students/:id/upload-fee-receipt] *)
Definition upload_fee_receipt (studentId : ident) (value : form) (s : store)
  : response * store :=
  match fileUploadValidator value with
  | Invalid status error => (Rejected status error None, s)
  | Valid registrationNumber file =>
      match select_student_by_id (Upload.database (site s)) studentId with
      | [] => (Rejected 404 "Student not found" None, s)
      | _ :: _ =>
          match (result <- on_site (Upload.handleFileUpload env pl
                                      registrationNumber file "fees-receipt") ;;
                 _ <- insert_finance now studentId None None
                        (Some (Upload.fileUrl result)) ;;
                 ret result)%js s with
          | (Return result, s') =>
              (Uploaded "Fee receipt uploaded successfully"
                        (Upload.fileUrl result) (Upload.f_name file) result, s')
          | (Throw error, s') =>
              (Rejected 500 "Failed to upload fee receipt"
                        (Some (message error)), s')
          end
      end
  end.

(** [POST /students/:id/upload-results]; [uploaded_at] is the time of the
    process when [result_data] is built. *)
Definition upload_results (uploaded_at : Z) (studentId : ident) (value : form)
           (s : store) : response * store :=
  match fileUploadValidator value with
  | Invalid status error => (Rejected status error None, s)
  | Valid registrationNumber file =>
      match select_student_by_id (Upload.database (site s)) studentId with
      | [] => (Rejected 404 "Student not found" None, s)
      | _ :: _ =>
          match (result <- on_site (Upload.handleFileUpload env pl
                                      registrationNumber file "results") ;;
                 let defaultSemester := "Current" in
                 let result_data :=
                   {| rd_file_url := Upload.fileUrl result;
                      rd_file_name := Upload.f_name file;
                      rd_file_size := Upload.f_size file;
                      rd_uploaded_at := uploaded_at |} in
                 rows <- insert_result now studentId defaultSemester
                           result_data ;;
                 ret (rows, result))%js s with
          | (Return (rows, result), s') =>
              (ResultsUploaded "Student results uploaded successfully"
                               (hd_error rows) (Upload.fileUrl result) result, s')
          | (Throw error, s') =>
              (Rejected 500 "Failed to upload student results"
                        (Some (message error)), s')
          end
      end
  end.

End Routes.

(** [ORDER BY created_at DESC] *)
Definition finance_newer_first (a b : finance_row) : bool :=
  (fin_created_at b <=? fin_created_at a)%Z.

Definition is_some {A : Type} (o : option A) : bool :=
  match o with Some _ => true | None => false end.

Inductive url_response :=
| NotFound (status : nat) (error : string)
| Found (url : option string).

(** [GET /students/:id/fee-statement]:
    [SELECT statement_url FROM finance WHERE student_id = $1 AND
     statement_url IS NOT NULL ORDER BY created_at DESC LIMIT 1] *)
Definition get_fee_statement (s : store) (studentId : ident) : url_response :=
  match Listings.order_by finance_newer_first
          (filter (fun r => (fin_student_id r =? studentId)%nat &&
                            is_some (fin_statement_url r)) (finance s)) with
  | [] => NotFound 404 "No fee statement found"
  | row :: _ => Found (fin_statement_url row)
  end.

(** [GET /students/:id/fee-receipt] *)
Definition get_fee_receipt (s : store) (studentId : ident) : url_response :=
  match Listings.order_by finance_newer_first
          (filter (fun r => (fin_student_id r =? studentId)%nat &&
                            is_some (fin_receipt_url r)) (finance s)) with
  | [] => NotFound 404 "No fee receipt found"
  | row :: _ => Found (fin_receipt_url row)
  end.

End StudentFiles.

(* ------------------------------------------------------------------------- *)
(** ** The migration runner: how [runMigrations] cuts a migration file into
       statements *)

Module Migrations.

Definition newline : string := String (ascii_of_nat 10) "".

(** [s.split('\n')], with the line read so far in [acc]. *)
Fixpoint split_lines (acc s : string) : list string :=
  match s with
  | EmptyString => [acc]
  | String c r =>
      if Ascii.eqb c (ascii_of_nat 10) then acc :: split_lines "" r
      else split_lines (acc ++ String c "") r
  end.

(** [s.includes(needle)] *)
Fixpoint includes (needle s : string) : bool :=
  String.prefix needle s ||
  match s with
  | EmptyString => false
  | String _ r => includes needle r
  end.

Fixpoint reverse (acc s : string) : string :=
  match s with
  | EmptyString => acc
  | String c r => reverse (String c acc) r
  end.

(** [s.endsWith(suffix)] *)
Definition endsWith (s suffix : string) : bool :=
  String.prefix (reverse "" suffix) (reverse "" s).

Definition is_letter (c : ascii) : bool :=
  let n := nat_of_ascii c in
  ((65 <=? n)%nat && (n <=? 90)%nat) || ((97 <=? n)%nat && (n <=? 122)%nat).

Definition lower (c : ascii) : ascii :=
  let n := nat_of_ascii c in
  if ((65 <=? n)%nat && (n <=? 90)%nat) then ascii_of_nat (n + 32) else c.

Fixpoint lowered (s : string) : string :=
  match s with
  | EmptyString => EmptyString
  | String c r => String (lower c) (lowered r)
  end.

Fixpoint drop_while (p : ascii -> bool) (s : string) : string :=
  match s with
  | EmptyString => EmptyString
  | String c r => if p c then drop_while p r else s
  end.

(** [s.match(/LANGUAGE\s+[a-z]+;$/i)], read from the end of [s]: the
    semicolon, the letters before it, the white space before them, and the
    word before that. *)
Definition ends_language (s : string) : bool :=
  match reverse "" s with
  | EmptyString => false
  | String c r =>
      let r1 := drop_while is_letter r in
      let r2 := drop_while Upload.is_space r1 in
      Ascii.eqb c ";"%char &&
      (String.length r1 <? String.length r)%nat &&
      (String.length r2 <? String.length r1)%nat &&
      String.prefix "egaugnal" (lowered r2)
  end.

Definition opens_function (line : string) : bool :=
  includes "CREATE FUNCTION" line || includes "CREATE PROCEDURE" line ||
  includes "CREATE OR REPLACE FUNCTION" line ||
  includes "CREATE OR REPLACE PROCEDURE" line.

(** The variables of the loop over the lines. *)
Record splitter := {
  statements : list string;
  currentStatement : string;
  inFunction : bool
}.

(** One iteration of [for (const line of sqlContent.split('\n'))]. *)
Definition step (st : splitter) (line : string) : splitter :=
  let inFunction := inFunction st || opens_function line in
  let currentStatement := currentStatement st ++ line ++ newline in
  if inFunction && ends_language (Upload.trim line) then
    {| statements := (statements st ++ [Upload.trim currentStatement])%list;
       currentStatement := ""; inFunction := false |}
  else if negb inFunction && endsWith (Upload.trim line) ";" then
    {| statements := (statements st ++ [Upload.trim currentStatement])%list;
       currentStatement := ""; inFunction := inFunction |}
  else
    {| statements := statements st; currentStatement := currentStatement;
       inFunction := inFunction |}.

Definition start : splitter :=
  {| statements := []; currentStatement := ""; inFunction := false |}.

(** The statements [runMigrations] executes for the lines of a file: the
    loop, the remaining text, and the filter on empty statements. *)
Definition split_statements (lines : list string) : list string :=
  let st := fold_left step lines start in
  let statements :=
    if Upload.trim (currentStatement st) =? "" then statements st
    else (statements st ++ [Upload.trim (currentStatement st)])%list in
  filter (fun s => negb (Upload.trim s =? "")) statements.

(** The statements of the text of a migration file. *)
Definition statements_of (sqlContent : string) : list string :=
  split_statements (split_lines "" sqlContent).

(** *** Vocabulary for the layout of a file *)

(** The text the loop accumulates for some lines. *)
Definition text (lines : list string) : string :=
  fold_right (fun line rest => line ++ newline ++ rest) "" lines.

(** Only white space. *)
Fixpoint blank (s : string) : bool :=
  match s with
  | EmptyString => true
  | String c r => Upload.is_space c && blank r
  end.

(** A text with no line break in it. *)
Fixpoint single_line (s : string) : bool :=
  match s with
  | EmptyString => true
  | String c r => negb (Ascii.eqb c (ascii_of_nat 10)) && single_line r
  end.

(** A line that neither opens a routine nor ends a statement. *)
Definition open_line (line : string) : bool :=
  negb (opens_function line) && negb (endsWith (Upload.trim line) ";").

(** A piece of a file: a plain statement, its last line ending in a
    semicolon; or a routine, from lines before it to the line that names its
    language. *)
Inductive chunk :=
| Plain (body : list string) (last : string)
| Routine (pre : list string) (first : string) (inner : list string)
          (last : string).

Definition lines_of (c : chunk) : list string :=
  match c with
  | Plain body last => (body ++ [last])%list
  | Routine pre first inner last => (pre ++ first :: inner ++ [last])%list
  end.

(** The statement a piece of the file is meant to become. *)
Definition statement_of (c : chunk) : string :=
  Upload.trim (text (lines_of c)).

Definition well_formed (c : chunk) : bool :=
  match c with
  | Plain body last =>
      forallb open_line body && negb (opens_function last) &&
      endsWith (Upload.trim last) ";"
  | Routine pre first inner last =>
      forallb open_line pre && opens_function first &&
      forallb (fun l => negb (ends_language (Upload.trim l))) (first :: inner) &&
      ends_language (Upload.trim last)
  end.

(** The creation of the trigger function of
    [create_student_documents_table.sql] and what follows it in the file. *)
Definition updated_at_routine : list string :=
  ["CREATE OR REPLACE FUNCTION update_updated_at_column()";
   "RETURNS TRIGGER AS $$";
   "BEGIN";
   "    NEW.updated_at = NOW();";
   "    RETURN NEW;";
   "END;";
   "$$ language 'plpgsql';";
   "";
   "-- Create trigger to automatically update updated_at";
   "DROP TRIGGER IF EXISTS update_student_documents_updated_at ON student_documents;";
   "CREATE TRIGGER update_student_documents_updated_at";
   "    BEFORE UPDATE ON student_documents";
   "    FOR EACH ROW";
   "    EXECUTE PROCEDURE update_updated_at_column();"].

(** The index statements of the same file and the trigger function of
    [create_password_trigger.sql]. *)
Definition index_statement : chunk :=
  Plain ["-- Create indexes for better performance"]
        "CREATE INDEX IF NOT EXISTS idx_student_documents_type ON student_documents(document_type);".

Definition password_routine : chunk :=
  Routine ["-- Create a trigger to set default password for new students"]
          "CREATE FUNCTION set_default_student_password()"
          ["RETURNS TRIGGER AS $$"; "BEGIN"; "  IF NEW.password IS NULL THEN";
           "    NEW.password := NEW.national_id;"; "  END IF;";
           "  RETURN NEW;"; "END;"]
          "$$ LANGUAGE plpgsql;".

End Migrations.

(* ------------------------------------------------------------------------- *)
(** ** Further sample data *)

Module Fixtures.

Definition direct_row : registered_unit :=
  {| ru_id := 60; ru_student_id := 1; ru_unit_name := "Algorithms";
     ru_unit_code := "CS101"; ru_status := "active" |}.

(** The sample campus after a direct registration of the first unit. *)
Definition registered_directly : db :=
  {| students := [Sample.amina]; units := [Sample.algorithms; Sample.databases];
     allocated_units := [Sample.allocation Allocated];
     registered_units := [direct_row];
     student_documents := []; fees := []; next_uuid := 100 |}.

(** The sample campus with no allocation yet. *)
Definition fresh_campus : db :=
  {| students := [Sample.amina]; units := [Sample.algorithms; Sample.databases];
     allocated_units := []; registered_units := [];
     student_documents := []; fees := []; next_uuid := 100 |}.


(** The sample campus where the fees record of the student carries the
    given balance. *)
Definition with_balance (balance : numeric) : db :=
  {| students := [Sample.amina]; units := [Sample.algorithms; Sample.databases];
     allocated_units := []; registered_units := []; student_documents := [];
     fees := [{| fee_student_id := 1; fee_balance := balance |}];
     next_uuid := 100 |}.

(** A document filed under a registration number that no student has. *)
Definition stray_document : student_document :=
  {| sd_id := 70; sd_registration_number := "CS/404/2021";
     sd_document_type := "results";
     sd_file_url := "/uploads/results/CS_404_2021_1700000000000.pdf";
     sd_file_name := "results.pdf"; sd_file_size := 2048%Z;
     sd_uploaded_at := 1700000000000%Z |}.

Definition archive : Upload.world :=
  {| Upload.database :=
       {| students := [Sample.amina]; units := []; allocated_units := [];
          registered_units := []; student_documents := [stray_document];
          fees := []; next_uuid := 100 |};
     Upload.bucket := []; Upload.uploads := [] |}.

End Fixtures.

(* ------------------------------------------------------------------------- *)
(** ** Sample data for the uploads by student id *)

Module Ledger.




Definition blank : Upload.File :=
  {| Upload.f_name := "blank.pdf"; Upload.f_size := 0%Z;
     Upload.f_type := "application/pdf"; Upload.f_bytes := [] |}.

End Ledger.

(* ========================================================================= *)
(** * Properties *)

(* ------------------------------------------------------------------------- *)
(** ** Facts about the store *)

Module DbFacts.

Lemma alloc_status_eqb_eq a b : alloc_status_eqb a b = true <-> a = b.
Proof. destruct a, b; simpl; split; intro H; congruence. Qed.

Lemma filter_nonempty {A : Type} (f : A -> bool) (l : list A) (x : A) :
  In x l -> f x = true -> filter f l <> [].
Proof.
  intros Hin Hf Hnil.
  assert (Hx : In x (filter f l)) by (apply filter_In; auto).
  rewrite Hnil in Hx. exact Hx.
Qed.

Lemma filter_head {A : Type} (f : A -> bool) (l : list A) (x : A) (r : list A) :
  filter f l = x :: r -> In x l /\ f x = true.
Proof.
  intro H. apply filter_In. rewrite H. now left.
Qed.


Lemma student_exists d reg st rest :
  select_student_by_registration d reg = st :: rest ->
  existsb (fun s => st_id s =? st_id st)%nat (students d) = true.
Proof.
  intro H. apply filter_head in H. destruct H as [Hin _].
  apply existsb_exists. exists st. split; [assumption | apply Nat.eqb_refl].
Qed.

(** A rolled back transaction leaves the store as it was. *)
Lemma sql_begin_rollback {A : Type} (callback : M db A) d e d' :
  sql_begin callback d = (Throw e, d') -> d' = d.
Proof.
  unfold sql_begin. destruct (callback d) as [[a|e0] d0]; intro H; congruence.
Qed.

Lemma sql_begin_commit {A : Type} (callback : M db A) d a d' :
  sql_begin callback d = (Return a, d') -> callback d = (Return a, d').
Proof.
  unfold sql_begin. destruct (callback d) as [[a0|e0] d0]; intro H; congruence.
Qed.

End DbFacts.
Import DbFacts.

(* ------------------------------------------------------------------------- *)
(** ** Bulk allocation *)

Module AllocationFacts.
Import Allocation.

Ltac proj_simpl :=
  cbn [conn allocatedUnits errors push_error units students registered_units
       allocated_units set_allocated_units next_uuid] in *.

Section Loop.

Variables (studentId : ident) (sem : Z) (year : string) (nts : option string).

Local Abbreviation new_row := (Allocation.new_row studentId sem year nts).

(** The four ways an iteration can end. *)
Lemma allocate_one_cases s u :
  let s' := allocate_one studentId sem year nts s u in
  (select_unit_by_id (conn s) u = [] /\
   s' = push_error s (not_found_message u))
  \/ (exists unit rest,
         select_unit_by_id (conn s) u = unit :: rest /\
         select_active_allocation (conn s) studentId u sem year <> [] /\
         s' = push_error s (already_allocated_message (u_unit_code unit)))
  \/ (exists unit rest e,
         select_unit_by_id (conn s) u = unit :: rest /\
         select_active_allocation (conn s) studentId u sem year = [] /\
         s' = push_error s (failed_message u e))
  \/ (exists unit rest,
         select_unit_by_id (conn s) u = unit :: rest /\
         select_active_allocation (conn s) studentId u sem year = [] /\
         s' = {| conn := set_allocated_units (conn s)
                           (allocated_units (conn s) ++ [new_row (conn s) u])
                           (S (next_uuid (conn s)));
                 allocatedUnits := allocatedUnits s ++
                   [{| av_row := Some (new_row (conn s) u);
                       av_unit_name := u_unit_name unit;
                       av_unit_code := u_unit_code unit |}];
                 errors := errors s |}).
Proof.
  destruct s as [d al er]. cbn [conn allocatedUnits errors].
  unfold allocate_one. cbn [conn allocatedUnits errors].
  destruct (select_unit_by_id d u) as [|unit rest] eqn:Hu.
  - left. split; reflexivity.
  - right.
    destruct (select_active_allocation d studentId u sem year) as [|a l] eqn:Ha.
    + right. unfold insert_allocated_unit.
      repeat match goal with
             | |- context [if ?c then _ else _] => destruct c
             end;
        try (left; eexists unit, rest, _; repeat split; reflexivity).
      right. exists unit, rest. repeat split; reflexivity.
    + left. exists unit, rest. repeat split; try reflexivity; discriminate.
Qed.

Lemma push_error_conn s m : conn (push_error s m) = conn s.
Proof. reflexivity. Qed.

(** Each requested id leaves one entry, in order; the rows inserted are
    appended to the table and nothing else changes. *)
Lemma allocate_loop_trace ids : forall s,
  let s' := allocate_loop studentId sem year nts ids s in
  units (conn s') = units (conn s) /\
  students (conn s') = students (conn s) /\
  registered_units (conn s') = registered_units (conn s) /\
  exists os rows,
    Forall2 (concerns (units (conn s))) ids os /\
    allocatedUnits s' = (allocatedUnits s ++ lefts os)%list /\
    errors s' = (errors s ++ rights os)%list /\
    map av_row (lefts os) = map Some rows /\
    Forall (fun r => au_status r = Allocated) rows /\
    allocated_units (conn s') = (allocated_units (conn s) ++ rows)%list.
Proof.
  induction ids as [|u ids IH]; intro s; cbn zeta.
  - simpl. do 3 (split; [reflexivity|]). exists [], []. simpl.
    rewrite !app_nil_r. repeat split; constructor.
  - unfold allocate_loop. simpl fold_left.
    fold (allocate_loop studentId sem year nts ids
            (allocate_one studentId sem year nts s u)).
    pose proof (allocate_one_cases s u) as Hc. cbn zeta in Hc.
    specialize (IH (allocate_one studentId sem year nts s u)). cbn zeta in IH.
    destruct IH as (Hu & Hs & Hr & os & rows & Hf & Hal & Her & Hmap & Hst & Hdb).
    destruct Hc as [[Hsel Hs1] | [(unit & rest & Hsel & Hact & Hs1)
                   | [(unit & rest & e & Hsel & Hact & Hs1)
                   | (unit & rest & Hsel & Hact & Hs1)]]];
      rewrite Hs1 in Hu, Hs, Hr, Hf, Hal, Her, Hdb |- *; proj_simpl.
    + do 3 (split; [assumption|]).
      exists (inr (not_found_message u) :: os), rows. simpl.
      rewrite <- app_assoc in Her. repeat split; try assumption.
      constructor; [now left | assumption].
    + do 3 (split; [assumption|]).
      exists (inr (already_allocated_message (u_unit_code unit)) :: os), rows.
      simpl. rewrite <- app_assoc in Her. repeat split; try assumption.
      constructor; [| assumption].
      right. left. exists unit. apply filter_head in Hsel.
      destruct Hsel as [Hin Heq]. apply Nat.eqb_eq in Heq. auto.
    + do 3 (split; [assumption|]).
      exists (inr (failed_message u e) :: os), rows. simpl.
      rewrite <- app_assoc in Her. repeat split; try assumption.
      constructor; [| assumption]. right. right. now exists e.
    + do 3 (split; [assumption|]).
      exists (inl {| av_row := Some (new_row (conn s) u);
                     av_unit_name := u_unit_name unit;
                     av_unit_code := u_unit_code unit |} :: os),
             (new_row (conn s) u :: rows).
      simpl. rewrite <- app_assoc in Hal, Hdb.
      repeat split; try assumption.
      * constructor; [| assumption]. simpl. now exists (new_row (conn s) u).
      * now rewrite Hmap.
      * constructor; [reflexivity | assumption].
Qed.




End Loop.

End AllocationFacts.

(* ------------------------------------------------------------------------- *)
(** ** Bulk allocation: the handler *)

Module AllocationClaims.
Import Allocation AllocationFacts.








End AllocationClaims.

(* ------------------------------------------------------------------------- *)
(** ** Registering an allocated unit *)

Module RegistrationFacts.
Import Registration.

Lemma flat_map_none {A B : Type} (f : A -> list B) (l : list A) :
  (forall a, In a l -> f a = []) -> flat_map f l = [].
Proof.
  induction l as [|a l IH]; intro H; simpl; [reflexivity|].
  rewrite (H a (or_introl eq_refl)). simpl. apply IH.
  intros x Hx. apply H. now right.
Qed.

(** Under the primary key, the join selects the rows of one allocation. *)
Lemma select_allocated_for_student_unique d id student_id row :
  NoDup (map au_id (allocated_units d)) ->
  In row (allocated_units d) -> au_id row = id ->
  select_allocated_for_student d id student_id =
  if eligible id student_id row then joined d row else [].
Proof.
  unfold select_allocated_for_student.
  induction (allocated_units d) as [|a l IH]; intros Hnd Hin Hid; [destruct Hin|].
  simpl in Hnd. inversion Hnd as [|? ? Hnotin Hnd']; subst.
  simpl flat_map. destruct Hin as [->|Hin].
  - rewrite flat_map_none.
    + now rewrite app_nil_r.
    + intros x Hx. unfold eligible.
      destruct (Nat.eqb_spec (au_id x) (au_id row)) as [Heq|Hne]; [|reflexivity].
      exfalso. apply Hnotin. rewrite <- Heq. now apply in_map.
  - assert (Hne : au_id a <> au_id row).
    { intro Heq. apply Hnotin. rewrite Heq. now apply in_map. }
    unfold eligible at 1. apply Nat.eqb_neq in Hne. rewrite Hne. simpl.
    now apply IH.
Qed.

(** Once the status of the allocation [id] is registered, no row of that
    allocation is eligible. *)
Lemma select_allocated_after_update d d' id student_id :
  allocated_units d' =
    map (fun a => if (au_id a =? id)%nat then with_status a Registered else a)
        (allocated_units d) ->
  select_allocated_for_student d' id student_id = [].
Proof.
  intro H. unfold select_allocated_for_student. rewrite H.
  apply flat_map_none. intros x Hx. apply in_map_iff in Hx.
  destruct Hx as (a & <- & _). unfold eligible.
  destruct (Nat.eqb_spec (au_id a) id) as [Heq|Hne].
  - cbn [with_status au_id au_student_id au_status alloc_status_eqb].
    rewrite andb_false_r. reflexivity.
  - apply Nat.eqb_neq in Hne. now rewrite Hne.
Qed.

(** The store after the handler, for any behaviour of the two statements:
    untouched, or with both writes. *)
Lemma register_allocated_unit_atomic sql d regNumber b :
  let d' := snd (register_allocated_unit sql d regNumber b) in
  d' = d \/
  exists id student_id unit_name unit_code d1 rows,
    allocated_unit_id b = Some id /\
    exec_update_status sql id Registered d = (Return tt, d1) /\
    exec_insert_registered sql student_id unit_name unit_code "registered" d1 =
      (Return rows, d').
Proof.
  cbn zeta. unfold register_allocated_unit.
  destruct (allocated_unit_id b) as [id|]; [|now left].
  destruct (select_student_by_registration d regNumber) as [|student ?]; [now left|].
  destruct (select_allocated_for_student d id (st_id student)) as [|au ?]; [now left|].
  destruct (select_registered d (st_id student) (aw_unit_code au)); [|now left].
  unfold sql_begin, register_transaction, bind, ret.
  destruct (exec_update_status sql id Registered d) as [[[]|e] d1] eqn:Hup;
    [|now left].
  destruct (exec_insert_registered sql (st_id student) (aw_unit_name au)
              (aw_unit_code au) "registered" d1) as [[rows|e] d2] eqn:Hins;
    [|now left].
  right. simpl. exists id, (st_id student), (aw_unit_name au), (aw_unit_code au), d1, rows.
  auto.
Qed.

End RegistrationFacts.

Module RegistrationClaims.
Import Registration RegistrationFacts.

(** C1: for an allocation [A] of the student in status allocated, with no
    registration of the student for its unit code, the handler sets the
    status of the allocation to registered and appends exactly one
    registration with the student's id, the unit's name and code and the
    status registered; the two writes are atomic (whatever the two
    statements do, the store ends untouched or with both writes); and a
    second call with the same allocation id is refused as not eligible and
    changes nothing. *)
Theorem register_allocated_unit_registers
        d regNumber A st rest row unit urest :
  NoDup (map au_id (allocated_units d)) ->
  select_student_by_registration d regNumber = st :: rest ->
  In row (allocated_units d) ->
  au_id row = A ->
  au_student_id row = st_id st ->
  au_status row = Allocated ->
  select_unit_by_id d (au_unit_id row) = unit :: urest ->
  select_registered d (st_id st) (u_unit_code unit) = [] ->
  let request := {| allocated_unit_id := Some A |} in
  let registration :=
    {| ru_id := next_uuid d; ru_student_id := st_id st;
       ru_unit_name := u_unit_name unit; ru_unit_code := u_unit_code unit;
       ru_status := "registered" |} in
  exists d',
    register_allocated_unit postgres d regNumber request =
      (Success "Unit registered successfully" (Some registration)
               (st_registration_number st) true, d') /\
    allocated_units d' =
      map (fun a => if (au_id a =? A)%nat then with_status a Registered else a)
          (allocated_units d) /\
    In (with_status row Registered) (allocated_units d') /\
    registered_units d' = (registered_units d ++ [registration])%list /\
    (exists details,
        register_allocated_unit postgres d' regNumber request =
          (Failure 404 "Allocated unit not found" details, d')) /\
    (forall sql : connection,
        let d'' := snd (register_allocated_unit sql d regNumber request) in
        d'' = d \/
        exists d1 rows,
          exec_update_status sql A Registered d = (Return tt, d1) /\
          exec_insert_registered sql (st_id st) (u_unit_name unit)
                                 (u_unit_code unit) "registered" d1 =
            (Return rows, d'')).
Proof.
  intros Hnd Hst Hrow Hid Hsid Hstatus Hunit Hnone request registration.
  assert (Hsel : select_allocated_for_student d A (st_id st) =
                 joined d row).
  { rewrite (select_allocated_for_student_unique d A (st_id st) row Hnd Hrow Hid).
    unfold eligible. rewrite Hid, Hsid, Hstatus, !Nat.eqb_refl. reflexivity. }
  unfold joined in Hsel. rewrite Hunit in Hsel. simpl map in Hsel.
  pose proof (student_exists d regNumber st rest Hst) as Hfk.
  set (d1 := set_allocated_units d
               (map (fun a => if (au_id a =? A)%nat
                              then with_status a Registered else a)
                    (allocated_units d)) (next_uuid d)).
  set (d' := set_registered_units d1 (registered_units d1 ++ [registration])
               (S (next_uuid d1))).
  assert (Hfirst : register_allocated_unit postgres d regNumber request =
                   (Success "Unit registered successfully" (Some registration)
                            (st_registration_number st) true, d')).
  { unfold register_allocated_unit. cbn [allocated_unit_id request].
    rewrite Hst, Hsel. cbn [aw_unit_code aw_unit_name]. rewrite Hnone.
    unfold sql_begin, register_transaction, bind, ret.
    cbn [postgres exec_update_status exec_insert_registered
         aw_unit_code aw_unit_name].
    unfold update_allocated_status, insert_registered_unit.
    fold d1. change (students d1) with (students d). rewrite Hfk.
    reflexivity. }
  exists d'. split; [exact Hfirst|]. split; [reflexivity|]. split.
  { cbn [d' d1 allocated_units set_registered_units set_allocated_units].
    apply in_map_iff. exists row. rewrite Hid, Nat.eqb_refl. auto. }
  split; [reflexivity|]. split.
  - eexists. unfold register_allocated_unit. cbn [allocated_unit_id request].
    change (select_student_by_registration d' regNumber)
      with (select_student_by_registration d regNumber).
    rewrite Hst.
    rewrite (select_allocated_after_update d d' A (st_id st) eq_refl).
    reflexivity.
  - intro sql. cbn zeta. unfold register_allocated_unit.
    cbn [allocated_unit_id request]. rewrite Hst, Hsel.
    cbn [aw_unit_code aw_unit_name]. rewrite Hnone.
    unfold sql_begin, register_transaction, bind, ret.
    cbn [aw_unit_code aw_unit_name].
    destruct (exec_update_status sql A Registered d) as [[[]|e] dd] eqn:Hup;
      [|now left].
    cbn beta iota.
    destruct (exec_insert_registered sql (st_id st) (u_unit_name unit)
                (u_unit_code unit) "registered" dd) as [[rows|e] d2] eqn:Hins;
      [|now left].
    right. exists dd, rows. auto.
Qed.

(** The theorem at the sample campus: the student registers allocation 20. *)
Lemma register_allocated_unit_registers_witness :
  let d := Sample.campus Allocated in
  let request := {| allocated_unit_id := Some 20 |} in
  let registration :=
    {| ru_id := 100; ru_student_id := 1; ru_unit_name := "Algorithms";
       ru_unit_code := "CS101"; ru_status := "registered" |} in
  exists d',
    register_allocated_unit postgres d "CS/001/2021" request =
      (Success "Unit registered successfully" (Some registration)
               "CS/001/2021" true, d') /\
    allocated_units d' =
      map (fun a => if (au_id a =? 20)%nat then with_status a Registered else a)
          (allocated_units d) /\
    In (with_status (Sample.allocation Allocated) Registered) (allocated_units d') /\
    registered_units d' = (registered_units d ++ [registration])%list /\
    (exists details,
        register_allocated_unit postgres d' "CS/001/2021" request =
          (Failure 404 "Allocated unit not found" details, d')) /\
    (forall sql : connection,
        let d'' := snd (register_allocated_unit sql d "CS/001/2021" request) in
        d'' = d \/
        exists d1 rows,
          exec_update_status sql 20 Registered d = (Return tt, d1) /\
          exec_insert_registered sql 1 "Algorithms" "CS101" "registered" d1 =
            (Return rows, d'')).
Proof.
  apply (register_allocated_unit_registers
           (Sample.campus Allocated) "CS/001/2021" 20 Sample.amina []
           (Sample.allocation Allocated) Sample.algorithms []).
  - simpl. constructor; [intros [] | constructor].
  - reflexivity.
  - simpl; auto.
  - reflexivity.
  - reflexivity.
  - reflexivity.
  - reflexivity.
  - reflexivity.
Defined.

End RegistrationClaims.

(* ------------------------------------------------------------------------- *)
(** ** The pairing of allocations and registrations is kept *)

Module PairingFacts.
Import Pairing.

Lemma unit_has_code_incl d d' unit_id code :
  incl (units d) (units d') ->
  unit_has_code d unit_id code -> unit_has_code d' unit_id code.
Proof.
  intros Hincl (u & Hin & Hid & Hcode). exists u. auto.
Qed.

Lemma NoDup_map_injective {A B : Type} (f : A -> B) (l : list A) x y :
  NoDup (map f l) -> In x l -> In y l -> f x = f y -> x = y.
Proof.
  induction l as [|a l IH]; intros Hnd Hx Hy Heq; [destruct Hx|].
  simpl in Hnd. inversion Hnd as [|? ? Hnotin Hnd']; subst.
  destruct Hx as [->|Hx], Hy as [->|Hy]; auto.
  - exfalso. apply Hnotin. rewrite Heq. now apply in_map.
  - exfalso. apply Hnotin. rewrite <- Heq. now apply in_map.
Qed.

(** Rows added in status allocated keep the pairing. *)
Lemma paired_after_allocation d d' rows :
  units d' = units d ->
  registered_units d' = registered_units d ->
  allocated_units d' = (allocated_units d ++ rows)%list ->
  Forall (fun r => au_status r = Allocated) rows ->
  paired d -> paired d'.
Proof.
  intros Hu Hr Ha Hall [Hrb Hab]. split.
  - intros r Hin Hst. rewrite Hr in Hin.
    destruct (Hrb r Hin Hst) as (a & Ha1 & Ha2 & Ha3 & Ha4).
    exists a. rewrite Ha. repeat split; auto.
    + apply in_or_app. now left.
    + apply (unit_has_code_incl d); [rewrite Hu; apply incl_refl | assumption].
  - intros a Hin Hst. rewrite Ha in Hin. apply in_app_or in Hin as [Hin|Hin].
    + destruct (Hab a Hin Hst) as (r & Hr1 & Hr2 & Hr3 & Hr4).
      exists r. rewrite Hr. repeat split; auto.
      apply (unit_has_code_incl d); [rewrite Hu; apply incl_refl | assumption].
    + rewrite Forall_forall in Hall. specialize (Hall a Hin). congruence.
Qed.

(** Registrations added in another status, and units added to the
    catalogue, keep the pairing. *)
Lemma paired_after_direct_registration d d' extra :
  incl (units d) (units d') ->
  allocated_units d' = allocated_units d ->
  registered_units d' = (registered_units d ++ extra)%list ->
  Forall (fun r => ru_status r <> "registered") extra ->
  paired d -> paired d'.
Proof.
  intros Hu Ha Hr Hall [Hrb Hab]. split.
  - intros r Hin Hst. rewrite Hr in Hin. apply in_app_or in Hin as [Hin|Hin].
    + destruct (Hrb r Hin Hst) as (a & Ha1 & Ha2 & Ha3 & Ha4).
      exists a. rewrite Ha. repeat split; auto.
      now apply (unit_has_code_incl d).
    + rewrite Forall_forall in Hall. specialize (Hall r Hin). contradiction.
  - intros a Hin Hst. rewrite Ha in Hin.
    destruct (Hab a Hin Hst) as (r & Hr1 & Hr2 & Hr3 & Hr4).
    exists r. rewrite Hr. repeat split; auto.
    + apply in_or_app. now left.
    + now apply (unit_has_code_incl d).
Qed.

Lemma well_formed_after_append d d' rows :
  allocated_units d' = (allocated_units d ++ rows)%list ->
  next_uuid d' = length rows + next_uuid d ->
  map au_id rows = seq (next_uuid d) (length rows) ->
  well_formed d -> well_formed d'.
Proof.
  intros Ha Hn Hids [Hnd Hlt]. split.
  - rewrite Ha, map_app, Hids. apply NoDup_app; [assumption | apply seq_NoDup |].
    intros i Hi Hseq. apply in_seq in Hseq. apply in_map_iff in Hi.
    destruct Hi as (a & <- & Hin). specialize (Hlt a Hin). lia.
  - intros a Hin. rewrite Ha in Hin. rewrite Hn.
    apply in_app_or in Hin as [Hin|Hin].
    + specialize (Hlt a Hin). lia.
    + assert (Hi : In (au_id a) (seq (next_uuid d) (length rows))).
      { rewrite <- Hids. now apply in_map. }
      apply in_seq in Hi. lia.
Qed.

Lemma well_formed_same_allocations d d' :
  allocated_units d' = allocated_units d ->
  next_uuid d <= next_uuid d' ->
  well_formed d -> well_formed d'.
Proof.
  intros Ha Hn [Hnd Hlt]. split; rewrite Ha; [assumption|].
  intros a Hin. specialize (Hlt a Hin). lia.
Qed.

(** *** Bulk allocation *)

Lemma allocate_one_well_formed studentId sem year nts s u :
  well_formed (Allocation.conn s) ->
  well_formed (Allocation.conn (Allocation.allocate_one studentId sem year nts s u)).
Proof.
  intro Hwf.
  pose proof (AllocationFacts.allocate_one_cases studentId sem year nts s u) as Hc.
  cbn zeta in Hc.
  destruct Hc as [[_ ->] | [(? & ? & _ & _ & ->) | [(? & ? & ? & _ & _ & ->)
                 | (? & ? & _ & _ & ->)]]]; try exact Hwf.
  cbn [Allocation.conn].
  apply (well_formed_after_append (Allocation.conn s) _
           [Allocation.new_row studentId sem year nts (Allocation.conn s) u]);
    try reflexivity; assumption.
Qed.

Lemma allocate_loop_well_formed studentId sem year nts ids : forall s,
  well_formed (Allocation.conn s) ->
  well_formed (Allocation.conn (Allocation.allocate_loop studentId sem year nts ids s)).
Proof.
  induction ids as [|u ids IH]; intros s Hwf; [exact Hwf|].
  apply IH. now apply allocate_one_well_formed.
Qed.

Lemma allocate_units_store d regNumber b :
  snd (Allocation.allocate_units d regNumber b) = d \/
  exists studentId sem year nts ids,
    snd (Allocation.allocate_units d regNumber b) =
    Allocation.conn
      (Allocation.allocate_loop studentId sem year nts ids
         {| Allocation.conn := d; Allocation.allocatedUnits := [];
            Allocation.errors := [] |}).
Proof.
  unfold Allocation.allocate_units.
  destruct (select_student_by_registration d regNumber) as [|st rest]; [now left|].
  destruct (Allocation.unit_ids b) as [[|u ids]|]; try now left.
  destruct (select_student_by_id d (st_id st)) as [|student srest]; [now left|].
  right. unfold sql_begin. eexists _, _, _, _, (u :: ids). reflexivity.
Qed.

Lemma allocate_units_keeps d regNumber b :
  well_formed d -> paired d ->
  well_formed (snd (Allocation.allocate_units d regNumber b)) /\
  paired (snd (Allocation.allocate_units d regNumber b)).
Proof.
  intros Hwf Hp.
  destruct (allocate_units_store d regNumber b)
    as [-> | (studentId & sem & year & nts & ids & ->)]; [now split|].
  split.
  - now apply allocate_loop_well_formed.
  - destruct (AllocationFacts.allocate_loop_trace studentId sem year nts ids
                {| Allocation.conn := d; Allocation.allocatedUnits := [];
                   Allocation.errors := [] |})
      as (Hu & _ & Hr & os & rows & _ & _ & _ & _ & Hall & Hdb).
    cbn zeta in *. cbn [Allocation.conn] in *.
    now apply (paired_after_allocation d _ rows).
Qed.

(** *** Registering an allocated unit *)

Lemma in_select_allocated_for_student d id student_id au :
  In au (select_allocated_for_student d id student_id) ->
  In (aw_row au) (allocated_units d) /\
  au_id (aw_row au) = id /\
  au_student_id (aw_row au) = student_id /\
  unit_has_code d (au_unit_id (aw_row au)) (aw_unit_code au).
Proof.
  unfold select_allocated_for_student. intro H.
  apply in_flat_map in H. destruct H as (a & Hin & Hau).
  destruct (eligible id student_id a) eqn:Hel; [|destruct Hau].
  unfold joined in Hau. apply in_map_iff in Hau.
  destruct Hau as (u & <- & Hu). apply filter_In in Hu. destruct Hu as [Hu Hid].
  apply Nat.eqb_eq in Hid. unfold eligible in Hel.
  apply andb_prop in Hel as [Hel _]. apply andb_prop in Hel as [H1 H2].
  apply Nat.eqb_eq in H1. apply Nat.eqb_eq in H2. simpl.
  repeat split; auto. exists u. auto.
Qed.

Lemma register_allocated_unit_store d regNumber b :
  let d' := snd (Registration.register_allocated_unit Registration.postgres
                   d regNumber b) in
  d' = d \/
  exists id student_id au,
    In au (select_allocated_for_student d id student_id) /\
    d' = registered_store d id student_id (aw_unit_name au) (aw_unit_code au).
Proof.
  cbn zeta. unfold Registration.register_allocated_unit.
  destruct (Registration.allocated_unit_id b) as [id|]; [|now left].
  destruct (select_student_by_registration d regNumber) as [|student ?]; [now left|].
  destruct (select_allocated_for_student d id (st_id student)) as [|au ?] eqn:Hsel;
    [now left|].
  destruct (select_registered d (st_id student) (aw_unit_code au)); [|now left].
  unfold sql_begin, Registration.register_transaction, bind, ret.
  cbn [Registration.postgres Registration.exec_update_status
       Registration.exec_insert_registered].
  unfold update_allocated_status, insert_registered_unit.
  cbn [students set_allocated_units].
  destruct (negb (existsb (fun s => (st_id s =? st_id student)%nat) (students d)));
    [now left|].
  right. exists id, (st_id student), au. split; [|reflexivity].
  rewrite Hsel. now left.
Qed.

Lemma map_update_ids id st (l : list allocated_unit) :
  map au_id (map (fun a => if (au_id a =? id)%nat then with_status a st else a) l) =
  map au_id l.
Proof.
  rewrite map_map. apply map_ext. intro a.
  destruct (au_id a =? id)%nat; reflexivity.
Qed.

Lemma with_status_same a : with_status a (au_status a) = a.
Proof. destruct a; reflexivity. Qed.

Lemma register_allocated_unit_keeps d regNumber b :
  well_formed d -> paired d ->
  well_formed (snd (Registration.register_allocated_unit Registration.postgres
                      d regNumber b)) /\
  paired (snd (Registration.register_allocated_unit Registration.postgres
                 d regNumber b)).
Proof.
  intros Hwf Hp.
  destruct (register_allocated_unit_store d regNumber b)
    as [-> | (id & sid & au & Hau & ->)]; [now split|].
  apply in_select_allocated_for_student in Hau.
  destruct Hau as (Hrow & Hid & Hsid & Hcode).
  destruct Hwf as [Hnd Hlt]. destruct Hp as [Hrb Hab].
  unfold registered_store. split; [split | split].
  - cbn [allocated_units set_registered_units set_allocated_units].
    now rewrite map_update_ids.
  - cbn [allocated_units set_registered_units set_allocated_units next_uuid].
    intros a' Hin. apply in_map_iff in Hin. destruct Hin as (a & <- & Hin).
    specialize (Hlt a Hin). destruct (au_id a =? id)%nat; simpl; lia.
  - intros r Hin Hst.
    cbn [registered_units allocated_units set_registered_units
         set_allocated_units] in *.
    apply in_app_or in Hin as [Hin|[<-|[]]].
    + destruct (Hrb r Hin Hst) as (a & Ha1 & Ha2 & Ha3 & Ha4).
      exists (if (au_id a =? id)%nat then with_status a Registered else a).
      split; [apply in_map_iff; now exists a|].
      destruct (au_id a =? id)%nat; simpl; repeat split; auto.
    + exists (with_status (aw_row au) Registered). split.
      * apply in_map_iff. exists (aw_row au). rewrite Hid, Nat.eqb_refl. auto.
      * simpl. repeat split; auto.
  - intros a' Hin Hst.
    cbn [registered_units allocated_units set_registered_units
         set_allocated_units] in *.
    apply in_map_iff in Hin. destruct Hin as (a & <- & Hin).
    destruct (Nat.eqb_spec (au_id a) id) as [Heq|Hne].
    + assert (a = aw_row au).
      { apply (NoDup_map_injective au_id (allocated_units d)); auto. congruence. }
      subst a. eexists. split; [apply in_or_app; right; now left|].
      simpl. repeat split; auto.
    + destruct (Hab a Hin Hst) as (r & Hr1 & Hr2 & Hr3 & Hr4).
      exists r. split; [apply in_or_app; now left|]. auto.
Qed.

(** *** Legacy direct registration *)

Lemma units_register_store d b :
  let d' := snd (Legacy.units_register d b) in
  exists new_units extra,
    units d' = (units d ++ new_units)%list /\
    allocated_units d' = allocated_units d /\
    registered_units d' = (registered_units d ++ extra)%list /\
    Forall (fun r => ru_status r = Allocation.default (Legacy.status b) "active")
           extra /\
    next_uuid d <= next_uuid d'.
Proof.
  cbn zeta. unfold Legacy.units_register.
  assert (Hsame : exists new_units extra,
             units d = (units d ++ new_units)%list /\
             allocated_units d = allocated_units d /\
             registered_units d = (registered_units d ++ extra)%list /\
             Forall (fun r => ru_status r =
                              Allocation.default (Legacy.status b) "active") extra /\
             next_uuid d <= next_uuid d).
  { exists [], []. rewrite !app_nil_r. repeat split; auto. }
  destruct (Legacy.student_reg b) as [reg|]; [|exact Hsame].
  destruct (Legacy.unit_name b) as [name|]; [|exact Hsame].
  destruct (Legacy.unit_code b) as [code|]; [|exact Hsame].
  destruct ((reg =? "") || (name =? "") || (code =? "")); [exact Hsame|].
  destruct (select_student_by_registration d reg) as [|st rest]; [exact Hsame|].
  set (created := match select_unit_by_code d code with
                  | [] => insert_unit name code d
                  | _ :: _ => (Return tt, d)
                  end).
  assert (Hc : exists new_units,
             units (snd created) = (units d ++ new_units)%list /\
             allocated_units (snd created) = allocated_units d /\
             registered_units (snd created) = registered_units d /\
             students (snd created) = students d /\
             next_uuid d <= next_uuid (snd created)).
  { unfold created. destruct (select_unit_by_code d code).
    - unfold insert_unit.
      destruct (existsb (fun u => u_unit_code u =? code) (units d)).
      + exists []. rewrite app_nil_r. repeat split; auto.
      + eexists. simpl. repeat split; auto.
    - exists []. rewrite app_nil_r. repeat split; auto. }
  destruct Hc as (new_units & Hu & Ha & Hr & Hs & Hn).
  destruct created as [[[]|e] d1]; cbn [snd] in *.
  - destruct (select_registered d1 (st_id st) code).
    + unfold insert_registered_unit.
      destruct (negb (existsb (fun s => (st_id s =? st_id st)%nat) (students d1))).
      * exists new_units, []. rewrite app_nil_r. repeat split; auto.
      * exists new_units. eexists. simpl. rewrite Hr. repeat split; eauto.
    + exists new_units, []. rewrite app_nil_r. repeat split; auto.
  - exists new_units, []. rewrite app_nil_r. repeat split; auto.
Qed.

Lemma units_register_keeps d b :
  Legacy.status b <> Some "registered" ->
  well_formed d -> paired d ->
  well_formed (snd (Legacy.units_register d b)) /\
  paired (snd (Legacy.units_register d b)).
Proof.
  intros Hst Hwf Hp.
  destruct (units_register_store d b) as (new_units & extra & Hu & Ha & Hr & Hall & Hn).
  cbn zeta in *. split.
  - now apply (well_formed_same_allocations d).
  - apply (paired_after_direct_registration d _ extra); auto.
    + rewrite Hu. apply incl_appl, incl_refl.
    + eapply Forall_impl; [|exact Hall]. intros r Hr'. rewrite Hr'.
      destruct (Legacy.status b) as [s|]; simpl; [congruence | discriminate].
Qed.

End PairingFacts.

Module PairingClaims.
Import Pairing PairingFacts.

Lemma sample_well_formed : well_formed (Sample.campus Allocated).
Proof.
  split.
  - simpl. constructor; [intros [] | constructor].
  - intros a [<-|[]]. simpl. lia.
Qed.

Lemma sample_paired : paired (Sample.campus Allocated).
Proof.
  split.
  - intros r [].
  - intros a [<-|[]] Hst. discriminate.
Qed.

(** C9 as stated fails: from a store where the pairing holds, the legacy
    direct registration with the status registered completes and leaves a
    registration in status registered that no allocation backs. *)
Lemma direct_registration_breaks_pairing :
  well_formed (Sample.campus Allocated) /\
  paired (Sample.campus Allocated) /\
  (exists r, fst (Legacy.units_register (Sample.campus Allocated)
                    (Sample.direct_registration (Some "registered"))) =
             Legacy.Success "Unit registered successfully for student" r
                            "CS/001/2021") /\
  ~ paired (run (Sample.campus Allocated)
                (UnitsRegister (Sample.direct_registration (Some "registered")))).
Proof.
  split; [exact sample_well_formed|]. split; [exact sample_paired|]. split.
  - eexists. reflexivity.
  - intros [Hrb _].
    destruct (Hrb {| ru_id := 100; ru_student_id := 1;
                     ru_unit_name := "Databases"; ru_unit_code := "CS102";
                     ru_status := "registered" |})
      as (a & Hin & _ & Hst & _).
    + simpl. now left.
    + reflexivity.
    + simpl in Hin. destruct Hin as [<-|[]]. discriminate.
Qed.

(** C9, amended: from a well-formed store where the pairing holds, every
    sequence of bulk allocations, registrations of allocated units and
    legacy direct registrations that do not ask for the status registered
    ends in a store where the pairing holds: no registration in status
    registered lacks an allocation in status registered of the same
    student and unit, and no allocation in status registered lacks such a
    registration.  The two writes of a registration of an allocated unit
    happen in one transaction: whatever its statements do, the store is
    left untouched or with both writes. *)
Theorem pairing_kept ops : forall d,
  well_formed d -> paired d ->
  Forall (fun op => ~ registers_directly op) ops ->
  (well_formed (fold_left run ops d) /\ paired (fold_left run ops d)) /\
  (forall sql regNumber b,
      let d' := snd (Registration.register_allocated_unit sql d regNumber b) in
      d' = d \/
      exists id student_id unit_name unit_code d1 rows,
        Registration.allocated_unit_id b = Some id /\
        Registration.exec_update_status sql id Registered d = (Return tt, d1) /\
        Registration.exec_insert_registered sql student_id unit_name unit_code
                                            "registered" d1 = (Return rows, d')).
Proof.
  intros d Hwf Hp Hops. split.
  - revert d Hwf Hp.
    induction Hops as [|op ops Hop Hops IH]; intros d Hwf Hp; [now split|].
    simpl fold_left.
    assert (Hstep : well_formed (run d op) /\ paired (run d op)).
    { destruct op as [regNumber b | regNumber b | b]; simpl run.
      - now apply allocate_units_keeps.
      - now apply register_allocated_unit_keeps.
      - apply units_register_keeps; auto. }
    destruct Hstep. now apply IH.
  - intros sql regNumber b.
    apply RegistrationFacts.register_allocated_unit_atomic.
Qed.

(** The theorem at the sample campus: unit 8 is allocated, allocation 20
    is registered, and a direct registration is made in the default
    status. *)
Lemma pairing_kept_witness :
  let ops := [AllocateUnits "CS/001/2021" (Sample.request [8]);
              RegisterAllocatedUnit "CS/001/2021"
                {| Registration.allocated_unit_id := Some 20 |};
              UnitsRegister (Sample.direct_registration None)] in
  let d := Sample.campus Allocated in
  (well_formed (fold_left run ops d) /\ paired (fold_left run ops d)) /\
  (forall sql regNumber b,
      let d' := snd (Registration.register_allocated_unit sql d regNumber b) in
      d' = d \/
      exists id student_id unit_name unit_code d1 rows,
        Registration.allocated_unit_id b = Some id /\
        Registration.exec_update_status sql id Registered d = (Return tt, d1) /\
        Registration.exec_insert_registered sql student_id unit_name unit_code
                                            "registered" d1 = (Return rows, d')).
Proof.
  apply (pairing_kept
           [AllocateUnits "CS/001/2021" (Sample.request [8]);
            RegisterAllocatedUnit "CS/001/2021"
              {| Registration.allocated_unit_id := Some 20 |};
            UnitsRegister (Sample.direct_registration None)]
           (Sample.campus Allocated)).
  - exact sample_well_formed.
  - exact sample_paired.
  - repeat constructor; simpl; try tauto. discriminate.
Defined.

End PairingClaims.

(* ------------------------------------------------------------------------- *)
(** ** Document upload *)

Module UploadFacts.
Import Upload.

Lemma insert_by_uploaded_at_perm x l :
  Permutation (insert_by_uploaded_at x l) (x :: l).
Proof.
  induction l as [|y l IH]; simpl; [reflexivity|].
  destruct (sd_uploaded_at y <? sd_uploaded_at x)%Z; [reflexivity|].
  rewrite IH. apply perm_swap.
Qed.

Lemma order_by_uploaded_at_desc_perm l :
  Permutation (order_by_uploaded_at_desc l) l.
Proof.
  induction l as [|x l IH]; simpl; [reflexivity|].
  rewrite insert_by_uploaded_at_perm. now constructor.
Qed.



(** *** The storage step leaves the database alone *)






End UploadFacts.

Module UploadClaims.
Import Upload UploadFacts.





Lemma supabase_upload_throw env file fileName w e w1 :
  supabase_upload env file fileName w = (Throw e, w1) -> w1 = w.
Proof.
  unfold supabase_upload, bind, rethrow_as, ret.
  destruct (listBuckets env) as [buckets|e0]; [|congruence].
  destruct (existsb (fun b => b =? "student-documents") buckets).
  - destruct (has_key fileName (bucket w)); [congruence|].
    destruct (storage_upload env); congruence.
  - destruct (createBucket env); [|congruence].
    destruct (has_key fileName (bucket w)); [congruence|].
    destruct (storage_upload env); congruence.
Qed.


(** When the service is not configured or its path throws, the storage
    step is the local write. *)
Lemma store_falls_back env file fileName w :
  (isSupabaseConfigured env = false \/
   exists e w1, supabase_upload env file fileName w = (Throw e, w1)) ->
  store env file fileName w =
    (fileUrl <- saveFileLocally env file fileName ;; ret (fileUrl, local))%js w.
Proof.
  intros [Hoff | (e & w1 & Hthrow)]; unfold store.
  - now rewrite Hoff.
  - destruct (isSupabaseConfigured env); [|reflexivity].
    rewrite Hthrow. now rewrite (supabase_upload_throw _ _ _ _ _ _ Hthrow).
Qed.








(** C2, at the input where the code departs from it: the blob is stored,
    the insert throws (the registration number does not fit its column),
    and the exception leaves [handleFileUpload] through the outer [catch]
    without any removal: the stored blob stays, with no row that refers
    to it.  The first case goes through local storage, the second through
    the storage service. *)
Theorem insert_failure_leaves_orphaned_blob :
  let key := key_of Sample.offline Sample.long_registration Sample.card
                    "exam-card" in
  let online := Sample.process (Some "https://project.supabase.co")
                               (Some "service-role-key") in
  (exists w',
      handleFileUpload Sample.offline postgres_pool Sample.long_registration
                       Sample.card "exam-card" Sample.empty_world =
        (Throw (PostgresError (string_data_right_truncation 50)), w') /\
      uploads w' = [(key, f_bytes Sample.card)] /\
      student_documents (database w') = []) /\
  (exists w',
      handleFileUpload online postgres_pool Sample.long_registration
                       Sample.card "exam-card" Sample.empty_world =
        (Throw (PostgresError (string_data_right_truncation 50)), w') /\
      bucket w' = [(key, f_bytes Sample.card)] /\
      student_documents (database w') = []).
Proof.
  split; eexists; (split; [vm_compute; reflexivity|]); split; reflexivity.
Qed.

(** Where the insert returns no row instead of throwing, the clean-up does
    run, and the error of the call is the insertion error whatever the
    removal does. *)
Lemma empty_insert_is_cleaned_up env pl registrationNumber file documentType
      w stored w1 d2 :
  let fileName := key_of env registrationNumber file documentType in
  store env file fileName w = (Return stored, w1) ->
  query_insert_document pl registrationNumber documentType (fst stored)
                        (f_name file) (f_size file) (uploaded_at_now env)
                        (database w1) = (Return [], d2) ->
  handleFileUpload env pl registrationNumber file documentType w =
    (Throw (Error "Database insertion failed"),
     snd (cleanup env (snd stored) fileName (with_database w1 d2))).
Proof.
  intros fileName Hstore Hins. unfold handleFileUpload. fold fileName.
  unfold bind at 1. rewrite Hstore. unfold bind at 1. unfold query.
  rewrite Hins. unfold bind, throw.
  destruct (cleanup env (snd stored) fileName (with_database w1 d2))
    as [[[]|e] w2] eqn:Hc; [reflexivity|].
  exfalso. unfold cleanup in Hc.
  destruct (snd stored); [destruct (storage_remove env)
                         | destruct (fs_unlink env) |]; discriminate.
Qed.

End UploadClaims.

(* ------------------------------------------------------------------------- *)
(** ** Exam card retrieval *)

Module ExamCardClaims.
Import ExamCard.





End ExamCardClaims.

(* ========================================================================= *)
(** * Further properties of the handlers *)

(* ------------------------------------------------------------------------- *)
(** ** The upload routes and [handleFileUpload] *)

Module UploadMore.
Import Upload UploadFacts Keys.

Lemma split_pop_no_dot s : forall acc, no_dot s -> split_pop acc s = acc ++ s.
Proof.
  induction s as [|c s IH]; intros acc Hs; simpl.
  - symmetry. clear Hs. induction acc as [|a acc IHa]; simpl; congruence.
  - destruct Hs as [Hc Hs]. apply Ascii.eqb_neq in Hc. rewrite Hc.
    rewrite (IH _ Hs). clear. induction acc as [|a acc IHa]; simpl; congruence.
Qed.

Lemma split_pop_after_dot base : forall acc ext,
  no_dot ext -> split_pop acc (base ++ "." ++ ext) = ext.
Proof.
  induction base as [|c base IH]; intros acc ext Hext; simpl.
  - now rewrite (split_pop_no_dot ext "" Hext).
  - destruct (Ascii.eqb c "."); now apply IH.
Qed.

(** X1: the extension [file.name.split('.').pop()] puts into the storage key
    is the text after the last dot of the file name, and the whole file name
    when the name has no dot. *)
Theorem extension_is_text_after_last_dot base ext :
  no_dot ext ->
  split_pop "" (base ++ "." ++ ext) = ext /\
  split_pop "" ext = ext.
Proof.
  intro Hext. split.
  - now apply split_pop_after_dot.
  - now rewrite (split_pop_no_dot ext "" Hext).
Qed.

Lemma extension_is_text_after_last_dot_witness :
  split_pop "" ("card.final" ++ "." ++ "pdf") = "pdf" /\
  split_pop "" "pdf" = "pdf".
Proof.
  apply (extension_is_text_after_last_dot "card.final" "pdf").
  simpl. repeat split; discriminate.
Defined.

(** X2: among the alternate spellings of a form field the first one that
    carries a value wins: a spelling that is absent or carries the empty
    text is passed over, and the spellings after the winner are not looked
    at. *)
Theorem first_alias_with_a_value_wins fd pre n post :
  Forall (fun m => value_truthy (get fd m) = false) pre ->
  value_truthy (get fd n) = true ->
  first_truthy fd (pre ++ n :: post) = get fd n.
Proof.
  intros Hpre Hn. induction Hpre as [|m pre Hm Hpre IH]; simpl.
  - destruct post; [reflexivity|]. now rewrite Hn.
  - rewrite Hm. destruct (pre ++ n :: post)%list eqn:Hl.
    + destruct pre; discriminate.
    + exact IH.
Qed.

Lemma first_alias_with_a_value_wins_witness :
  first_truthy [("registrationNumber", Text ""); ("regNumber", Text "CS/001/2021");
                ("reg_number", Text "CS/999/2021")]
               (["registrationNumber"; "registration_number"] ++
                "regNumber" :: ["reg_number"]) =
  Some (Text "CS/001/2021").
Proof.
  apply (first_alias_with_a_value_wins
           [("registrationNumber", Text ""); ("regNumber", Text "CS/001/2021");
            ("reg_number", Text "CS/999/2021")]
           ["registrationNumber"; "registration_number"] "regNumber" ["reg_number"]).
  - repeat constructor.
  - reflexivity.
Defined.

(** X3: a file of more than 10 MiB is refused with status 400 on every
    upload route before anything is stored: no blob is written and no row
    is inserted. *)
Theorem oversized_file_rejected r env pl formData registrationNumber file w :
  first_truthy formData (registration_fields r) = Some (Text registrationNumber) ->
  registrationNumber <> "" ->
  first_truthy formData (file_fields r) = Some (Blob file) ->
  (10 * 1024 * 1024 < f_size file)%Z ->
  post r env pl (Some formData) w =
    (Failure 400 "File size must be less than 10MB" None, w).
Proof.
  intros Hreg Hne Hfile Hsize. unfold post. rewrite Hreg, Hfile.
  apply String.eqb_neq in Hne. rewrite Hne.
  replace (f_size file =? 0)%Z with false by (symmetry; apply Z.eqb_neq; lia).
  rewrite andb_false_r.
  replace (10 * 1024 * 1024 <? f_size file)%Z with true
    by (symmetry; apply Z.ltb_lt; lia).
  reflexivity.
Qed.

Lemma oversized_file_rejected_witness :
  post fees_receipt Sample.offline postgres_pool
       (Some [("regNumber", Text "CS/001/2021");
              ("document", Blob {| f_name := "scan.pdf"; f_size := 10485761%Z;
                                   f_type := "application/pdf"; f_bytes := [] |})])
       Sample.empty_world =
    (Failure 400 "File size must be less than 10MB" None, Sample.empty_world).
Proof.
  apply (oversized_file_rejected fees_receipt Sample.offline postgres_pool _
           "CS/001/2021"
           {| f_name := "scan.pdf"; f_size := 10485761%Z;
              f_type := "application/pdf"; f_bytes := [] |}).
  - reflexivity.
  - discriminate.
  - reflexivity.
  - reflexivity.
Defined.

(** X4: an upload route that answers 400 has changed nothing: every
    validation failure is decided before the storage step and the insert. *)
Theorem validation_failure_changes_nothing r env pl formData w error details :
  fst (post r env pl formData w) = Failure 400 error details ->
  snd (post r env pl formData w) = w.
Proof.
  unfold post.
  destruct formData as [fd|]; [|reflexivity].
  destruct (first_truthy fd (registration_fields r)) as [[reg|f]|]; try reflexivity.
  destruct (reg =? ""); [reflexivity|].
  destruct (first_truthy fd (file_fields r)) as [[s|file]|]; try reflexivity.
  destruct (rejects_empty r && (f_size file =? 0)%Z); [reflexivity|].
  destruct (10 * 1024 * 1024 <? f_size file)%Z; [reflexivity|].
  destruct (rejects_small r && (f_size file <? 1024)%Z); [reflexivity|].
  destruct (handleFileUpload env pl (trim reg) file (document_type r) w)
    as [[res|e] w']; simpl; discriminate.
Qed.

Lemma validation_failure_changes_nothing_witness :
  snd (post exam_card Sample.offline postgres_pool
            (Some [("registrationNumber", Text "CS/001/2021");
                   ("file", Blob {| f_name := "tiny.pdf"; f_size := 1023%Z;
                                    f_type := "application/pdf"; f_bytes := [] |})])
            Sample.empty_world) = Sample.empty_world.
Proof.
  apply (validation_failure_changes_nothing exam_card Sample.offline postgres_pool
           (Some [("registrationNumber", Text "CS/001/2021");
                  ("file", Blob {| f_name := "tiny.pdf"; f_size := 1023%Z;
                                   f_type := "application/pdf"; f_bytes := [] |})])
           Sample.empty_world "File appears to be empty or too small" None).
  reflexivity.
Defined.

(** X5: when the storage service is configured and works, the file is
    stored in the bucket under its key, after the bucket has been created
    if it was missing; the URL is the public URL of that key, the method is
    supabase, and nothing is written below the local uploads directory. *)
Theorem upload_through_the_service env file fileName w buckets :
  isSupabaseConfigured env = true ->
  listBuckets env = Return buckets ->
  In "student-documents" buckets \/ createBucket env = Return tt ->
  has_key fileName (bucket w) = false ->
  storage_upload env = Return tt ->
  store env file fileName w =
    (Return (getPublicUrl env fileName, supabase),
     {| database := database w;
        bucket := bucket w ++ [(fileName, f_bytes file)];
        uploads := uploads w |}).
Proof.
  intros Hconf Hlist Hbucket Hfree Hup. unfold store. rewrite Hconf.
  unfold supabase_upload, bind, rethrow_as, ret. rewrite Hlist.
  destruct (existsb (fun b => b =? "student-documents") buckets) eqn:Hex.
  - rewrite Hfree, Hup. reflexivity.
  - destruct Hbucket as [Hin | Hcreate].
    + exfalso. rewrite <- Bool.not_true_iff_false in Hex. apply Hex.
      apply existsb_exists. exists "student-documents".
      split; [assumption | apply String.eqb_refl].
    + rewrite Hcreate, Hfree, Hup. reflexivity.
Qed.

Lemma upload_through_the_service_witness :
  store (Sample.process (Some "https://project.supabase.co") (Some "service-role-key"))
        Sample.card "exam-card/CS/001/2021_1700000000000.pdf" Sample.empty_world =
    (Return (Sample.public_url "exam-card/CS/001/2021_1700000000000.pdf", supabase),
     {| database := database Sample.empty_world;
        bucket := [("exam-card/CS/001/2021_1700000000000.pdf", [])];
        uploads := [] |}).
Proof.
  apply (upload_through_the_service
           (Sample.process (Some "https://project.supabase.co") (Some "service-role-key"))
           Sample.card "exam-card/CS/001/2021_1700000000000.pdf" Sample.empty_world
           ["student-documents"]).
  - reflexivity.
  - reflexivity.
  - left. simpl. auto.
  - reflexivity.
  - reflexivity.
Defined.

(** X6: when the storage step falls back to the local directory and the
    directory cannot be made or the file cannot be written, the upload
    throws [Local storage failed: ...] with the message of the file system,
    and nothing has changed: no blob, no row, and the insert is not even
    issued. *)
Theorem storage_failure_stores_nothing
        env pl registrationNumber file documentType w e :
  let fileName := key_of env registrationNumber file documentType in
  (isSupabaseConfigured env = false \/
   exists e0 w1, supabase_upload env file fileName w = (Throw e0, w1)) ->
  (fs_mkdir env = Throw e \/
   (fs_mkdir env = Return tt /\ fs_writeFile env = Throw e)) ->
  handleFileUpload env pl registrationNumber file documentType w =
    (Throw (Error ("Local storage failed: " ++ message e)), w).
Proof.
  intros fileName Htrigger Hfs. unfold handleFileUpload. fold fileName.
  unfold bind at 1. rewrite (UploadClaims.store_falls_back env file fileName w Htrigger).
  unfold bind at 1. unfold saveFileLocally, bind, rethrow_as, ret.
  destruct Hfs as [Hm | [Hm Hw]].
  - rewrite Hm. reflexivity.
  - rewrite Hm, Hw. reflexivity.
Qed.

Lemma storage_failure_stores_nothing_witness :
  handleFileUpload
    {| SUPABASE_URL := None; SUPABASE_SERVICE_ROLE_KEY := None;
       Date_now := 1700000000000%Z; uploaded_at_now := 1700000000005%Z;
       listBuckets := Return []; createBucket := Return tt;
       storage_upload := Return tt; getPublicUrl := Sample.public_url;
       storage_remove := Return tt;
       fs_mkdir := Return tt;
       fs_writeFile := Throw (Error "ENOSPC: no space left on device");
       fs_unlink := Return tt |}
    postgres_pool "CS/001/2021" Sample.card "exam-card" Sample.empty_world =
  (Throw (Error "Local storage failed: ENOSPC: no space left on device"),
   Sample.empty_world).
Proof.
  apply (storage_failure_stores_nothing
           {| SUPABASE_URL := None; SUPABASE_SERVICE_ROLE_KEY := None;
              Date_now := 1700000000000%Z; uploaded_at_now := 1700000000005%Z;
              listBuckets := Return []; createBucket := Return tt;
              storage_upload := Return tt; getPublicUrl := Sample.public_url;
              storage_remove := Return tt;
              fs_mkdir := Return tt;
              fs_writeFile := Throw (Error "ENOSPC: no space left on device");
              fs_unlink := Return tt |}
           postgres_pool "CS/001/2021" Sample.card "exam-card" Sample.empty_world
           (Error "ENOSPC: no space left on device")).
  - left. reflexivity.
  - right. split; reflexivity.
Defined.

End UploadMore.

Module ListingMore.
Import Upload UploadFacts.







End ListingMore.

(* ------------------------------------------------------------------------- *)
(** ** The allocation workflow *)

Module WorkflowMore.
Import Keys Pairing PairingFacts.



(** X9: when the student already has a registration with the unit code of
    the allocation (for instance from a direct registration), registering the
    allocation is refused with status 409 and nothing changes: the
    allocation stays in status allocated. *)
Theorem register_conflict sql d regNumber A st rest row unit urest r :
  NoDup (map au_id (allocated_units d)) ->
  select_student_by_registration d regNumber = st :: rest ->
  In row (allocated_units d) ->
  au_id row = A ->
  au_student_id row = st_id st ->
  au_status row = Allocated ->
  select_unit_by_id d (au_unit_id row) = unit :: urest ->
  In r (registered_units d) ->
  ru_student_id r = st_id st ->
  ru_unit_code r = u_unit_code unit ->
  Registration.register_allocated_unit sql d regNumber
    {| Registration.allocated_unit_id := Some A |} =
  (Registration.Failure 409 "Unit already registered"
     "Student is already registered for this unit", d).
Proof.
  intros Hnd Hst Hrow Hid Hsid Hstatus Hunit Hr Hrs Hrc.
  unfold Registration.register_allocated_unit.
  cbn [Registration.allocated_unit_id]. rewrite Hst.
  rewrite (RegistrationFacts.select_allocated_for_student_unique
             d A (st_id st) row Hnd Hrow Hid).
  unfold eligible. rewrite Hid, Hsid, Hstatus, !Nat.eqb_refl. cbn [andb alloc_status_eqb].
  unfold joined. rewrite Hunit. cbn [map aw_unit_code].
  destruct (select_registered d (st_id st) (u_unit_code unit)) eqn:Hsel;
    [|reflexivity].
  exfalso. apply (filter_nonempty _ _ r Hr) in Hsel; [exact Hsel|].
  rewrite Hrs, Hrc, Nat.eqb_refl, String.eqb_refl. reflexivity.
Qed.

Lemma register_conflict_witness :
  Registration.register_allocated_unit Registration.postgres
    Fixtures.registered_directly "CS/001/2021"
    {| Registration.allocated_unit_id := Some 20 |} =
  (Registration.Failure 409 "Unit already registered"
     "Student is already registered for this unit", Fixtures.registered_directly).
Proof.
  apply (register_conflict Registration.postgres Fixtures.registered_directly
           "CS/001/2021" 20 Sample.amina [] (Sample.allocation Allocated)
           Sample.algorithms [] Fixtures.direct_row).
  - simpl. constructor; [intros [] | constructor].
  - reflexivity.
  - simpl; auto.
  - reflexivity.
  - reflexivity.
  - reflexivity.
  - reflexivity.
  - simpl; auto.
  - reflexivity.
  - reflexivity.
Defined.

(** *** The looked-up pair of [registered_units] stays unique *)

Lemma NoDup_snoc {A : Type} (l : list A) (x : A) :
  NoDup l -> ~ In x l -> NoDup (l ++ [x]).
Proof.
  intros Hnd Hx. apply NoDup_app; [assumption | repeat constructor; intros [] |].
  intros y Hy [<-|[]]. contradiction.
Qed.

Lemma registered_once_append d d' row :
  registered_units d' = (registered_units d ++ [row])%list ->
  select_registered d (ru_student_id row) (ru_unit_code row) = [] ->
  registered_once d -> registered_once d'.
Proof.
  unfold registered_once. intros Hr Hsel Hnd. rewrite Hr, map_app. simpl.
  apply NoDup_snoc; [assumption|].
  intro Hin. apply in_map_iff in Hin. destruct Hin as (r & Hkey & Hin).
  unfold registration_key in Hkey. injection Hkey as Hs Hc.
  apply (filter_nonempty _ _ r Hin) in Hsel; [exact Hsel|].
  rewrite Hs, Hc, Nat.eqb_refl, String.eqb_refl. reflexivity.
Qed.

Lemma register_allocated_unit_appends d regNumber b :
  let d' := snd (Registration.register_allocated_unit Registration.postgres
                   d regNumber b) in
  registered_units d' = registered_units d \/
  exists row,
    registered_units d' = (registered_units d ++ [row])%list /\
    select_registered d (ru_student_id row) (ru_unit_code row) = [].
Proof.
  cbn zeta. unfold Registration.register_allocated_unit.
  destruct (Registration.allocated_unit_id b) as [id|]; [|now left].
  destruct (select_student_by_registration d regNumber) as [|student ?]; [now left|].
  destruct (select_allocated_for_student d id (st_id student)) as [|au ?];
    [now left|].
  destruct (select_registered d (st_id student) (aw_unit_code au)) eqn:Hsel;
    [|now left].
  unfold sql_begin, Registration.register_transaction, bind, ret.
  cbn [Registration.postgres Registration.exec_update_status
       Registration.exec_insert_registered].
  unfold update_allocated_status, insert_registered_unit.
  cbn [students set_allocated_units].
  destruct (negb (existsb (fun s => (st_id s =? st_id student)%nat) (students d)));
    [now left|].
  right. eexists. split; [reflexivity|]. exact Hsel.
Qed.

Lemma units_register_appends d b :
  let d' := snd (Legacy.units_register d b) in
  registered_units d' = registered_units d \/
  exists row,
    registered_units d' = (registered_units d ++ [row])%list /\
    select_registered d (ru_student_id row) (ru_unit_code row) = [].
Proof.
  cbn zeta. unfold Legacy.units_register.
  destruct (Legacy.student_reg b) as [reg|]; [|now left].
  destruct (Legacy.unit_name b) as [name|]; [|now left].
  destruct (Legacy.unit_code b) as [code|]; [|now left].
  destruct ((reg =? "") || (name =? "") || (code =? "")); [now left|].
  destruct (select_student_by_registration d reg) as [|st rest]; [now left|].
  set (created := match select_unit_by_code d code with
                  | [] => insert_unit name code d
                  | _ :: _ => (Return tt, d)
                  end).
  assert (Hc : registered_units (snd created) = registered_units d /\
               students (snd created) = students d).
  { unfold created. destruct (select_unit_by_code d code); [|now split].
    unfold insert_unit.
    destruct (existsb (fun u => u_unit_code u =? code) (units d)); now split. }
  destruct Hc as [Hr Hs].
  destruct created as [[[]|e] d1]; cbn [snd] in *; [|left; exact Hr].
  destruct (select_registered d1 (st_id st) code) eqn:Hsel; [|left; exact Hr].
  unfold insert_registered_unit.
  destruct (negb (existsb (fun s => (st_id s =? st_id st)%nat) (students d1)));
    [left; exact Hr|].
  right. eexists. split.
  - cbn. rewrite Hr. reflexivity.
  - cbn. unfold select_registered in *. rewrite <- Hr. exact Hsel.
Qed.

(** X10: at most one registration per student and unit code: a store in
    which no two rows of [registered_units] share student and unit code
    stays so under every sequence of bulk allocations, registrations of
    allocated units and direct registrations, whatever their bodies. *)
Theorem registered_once_kept ops : forall d,
  registered_once d -> registered_once (fold_left run ops d).
Proof.
  induction ops as [|op ops IH]; intros d Hd; [exact Hd|].
  simpl fold_left. apply IH.
  destruct op as [regNumber b | regNumber b | b]; simpl run.
  - destruct (allocate_units_store d regNumber b)
      as [-> | (studentId & sem & year & nts & ids & ->)]; [exact Hd|].
    destruct (AllocationFacts.allocate_loop_trace studentId sem year nts ids
                {| Allocation.conn := d; Allocation.allocatedUnits := [];
                   Allocation.errors := [] |})
      as (_ & _ & Hr & _).
    cbn zeta in Hr. cbn [Allocation.conn] in Hr.
    unfold registered_once. now rewrite Hr.
  - destruct (register_allocated_unit_appends d regNumber b)
      as [Heq | (row & Heq & Hsel)]; cbn zeta in *.
    + unfold registered_once. now rewrite Heq.
    + now apply (registered_once_append d _ row).
  - destruct (units_register_appends d b) as [Heq | (row & Heq & Hsel)];
      cbn zeta in *.
    + unfold registered_once. now rewrite Heq.
    + now apply (registered_once_append d _ row).
Qed.

Lemma registered_once_kept_witness :
  registered_once
    (fold_left run
       [UnitsRegister (Sample.direct_registration (Some "registered"));
        UnitsRegister (Sample.direct_registration None);
        RegisterAllocatedUnit "CS/001/2021"
          {| Registration.allocated_unit_id := Some 20 |}]
       (Sample.campus Allocated)).
Proof.
  apply (registered_once_kept
           [UnitsRegister (Sample.direct_registration (Some "registered"));
            UnitsRegister (Sample.direct_registration None);
            RegisterAllocatedUnit "CS/001/2021"
              {| Registration.allocated_unit_id := Some 20 |}]
           (Sample.campus Allocated)).
  constructor.
Defined.

End WorkflowMore.

Module AllocationMore.
Import Keys Pairing PairingFacts Allocation.

Lemma existsb_false {A : Type} (f : A -> bool) (l : list A) :
  existsb f l = false <-> forall x, In x l -> f x = false.
Proof.
  split.
  - intros H x Hx. destruct (f x) eqn:Hf; [|reflexivity].
    rewrite <- H. symmetry. apply existsb_exists. now exists x.
  - intro H. destruct (existsb f l) eqn:He; [|reflexivity].
    apply existsb_exists in He. destruct He as (x & Hx & Hf).
    now rewrite (H x Hx) in Hf.
Qed.



Section Loop.

Variables (studentId : ident) (sem : Z) (year : string) (nts : option string).

Local Abbreviation row_for d u := (Allocation.new_row studentId sem year nts d u).






End Loop.








End AllocationMore.

Module LegacyMore.
Import Legacy.

Lemma select_unit_by_code_none d code :
  select_unit_by_code d code = [] ->
  existsb (fun u => u_unit_code u =? code) (units d) = false.
Proof.
  intro H. apply AllocationMore.existsb_false. intros u Hu.
  destruct (u_unit_code u =? code) eqn:He; [|reflexivity].
  exfalso.
  apply (filter_nonempty (fun u => u_unit_code u =? code) (units d) u Hu He).
  exact H.
Qed.

(** The store once the unit of a direct registration is in the catalogue. *)
Lemma unit_ensured d name code :
  exists d1,
    match select_unit_by_code d code with
    | [] => insert_unit name code d
    | _ :: _ => (Return tt, d)
    end = (Return tt, d1) /\
    students d1 = students d /\
    allocated_units d1 = allocated_units d /\
    registered_units d1 = registered_units d /\
    select_unit_by_code d1 code <> [] /\
    (select_unit_by_code d code <> [] -> d1 = d).
Proof.
  destruct (select_unit_by_code d code) as [|u us] eqn:Hsel.
  - unfold insert_unit. rewrite (select_unit_by_code_none d code Hsel).
    eexists. split; [reflexivity|]. cbn. repeat split; try congruence.
    unfold select_unit_by_code. cbn. rewrite filter_app. cbn.
    rewrite String.eqb_refl. intro H. apply app_eq_nil in H. destruct H; discriminate.
  - exists d. repeat split; try reflexivity. rewrite Hsel. discriminate.
Qed.

(** X14: a direct registration of a unit the student is not yet registered
    for succeeds: it adds the unit to the catalogue when no unit has the
    code, appends one registration with the student's id, the given name
    and code and the given or default status, and touches no allocation.
    Repeating the same request is then refused with status 409 and changes
    nothing. *)
Theorem direct_registration_registers_once d b reg name code st rest :
  student_reg b = Some reg ->
  unit_name b = Some name ->
  unit_code b = Some code ->
  reg <> "" -> name <> "" -> code <> "" ->
  select_student_by_registration d reg = st :: rest ->
  select_registered d (st_id st) code = [] ->
  exists row d',
    units_register d b =
      (Success "Unit registered successfully for student" row reg, d') /\
    ru_student_id row = st_id st /\
    ru_unit_name row = name /\
    ru_unit_code row = code /\
    ru_status row = Allocation.default (status b) "active" /\
    registered_units d' = (registered_units d ++ [row])%list /\
    select_unit_by_code d' code <> [] /\
    (select_unit_by_code d code <> [] -> units d' = units d) /\
    allocated_units d' = allocated_units d /\
    units_register d' b =
      (Failure 409 "Unit already registered"
               "Student is already registered for this unit", d').
Proof.
  intros Hreg Hname Hcode Hr Hn Hc Hst Hnone.
  destruct (unit_ensured d name code) as (d1 & Hens & Hs1 & Ha1 & Hr1 & Hu1 & Hsame).
  apply String.eqb_neq in Hr, Hn, Hc.
  set (row := {| ru_id := next_uuid d1; ru_student_id := st_id st;
                 ru_unit_name := name; ru_unit_code := code;
                 ru_status := Allocation.default (status b) "active" |}).
  set (d' := set_registered_units d1 (registered_units d1 ++ [row])
               (S (next_uuid d1))).
  assert (Hfk : existsb (fun s => (st_id s =? st_id st)%nat) (students d1) = true).
  { rewrite Hs1. apply (student_exists d reg st rest Hst). }
  exists row, d'. split.
  { unfold units_register. rewrite Hreg, Hname, Hcode, Hr, Hn, Hc. cbn [orb].
    rewrite Hst, Hens.
    replace (select_registered d1 (st_id st) code) with (@nil registered_unit)
      by (unfold select_registered in *; now rewrite Hr1).
    unfold insert_registered_unit. rewrite Hfk. reflexivity. }
  split; [reflexivity|]. split; [reflexivity|]. split; [reflexivity|].
  split; [reflexivity|]. split; [cbn; now rewrite Hr1|].
  split; [exact Hu1|]. split; [intro H; cbn; now rewrite (Hsame H)|].
  split; [exact Ha1|].
  unfold units_register. rewrite Hreg, Hname, Hcode, Hr, Hn, Hc. cbn [orb].
  replace (select_student_by_registration d' reg) with (st :: rest)
    by (unfold select_student_by_registration in *; cbn; now rewrite Hs1).
  change (select_unit_by_code d' code) with (select_unit_by_code d1 code).
  destruct (select_unit_by_code d1 code) as [|u us]; [congruence|].
  destruct (select_registered d' (st_id st) code) eqn:Hsel; [|reflexivity].
  exfalso. apply (filter_nonempty _ _ row) in Hsel; [exact Hsel | |].
  - cbn. apply in_or_app. right. now left.
  - cbn. now rewrite Nat.eqb_refl, String.eqb_refl.
Qed.

Lemma direct_registration_registers_once_witness :
  exists row d',
    units_register Fixtures.fresh_campus
                   {| student_reg := Some "CS/001/2021";
                      unit_name := Some "Compilers";
                      unit_code := Some "CS301"; status := None |} =
      (Success "Unit registered successfully for student" row "CS/001/2021", d') /\
    ru_student_id row = 1 /\
    ru_unit_name row = "Compilers" /\
    ru_unit_code row = "CS301" /\
    ru_status row = "active" /\
    registered_units d' = (registered_units Fixtures.fresh_campus ++ [row])%list /\
    select_unit_by_code d' "CS301" <> [] /\
    (select_unit_by_code Fixtures.fresh_campus "CS301" <> [] ->
     units d' = units Fixtures.fresh_campus) /\
    allocated_units d' = allocated_units Fixtures.fresh_campus /\
    units_register d'
                   {| student_reg := Some "CS/001/2021";
                      unit_name := Some "Compilers";
                      unit_code := Some "CS301"; status := None |} =
      (Failure 409 "Unit already registered"
               "Student is already registered for this unit", d').
Proof.
  apply (direct_registration_registers_once Fixtures.fresh_campus
           {| student_reg := Some "CS/001/2021"; unit_name := Some "Compilers";
              unit_code := Some "CS301"; status := None |}
           "CS/001/2021" "Compilers" "CS301" Sample.amina []);
    try reflexivity; discriminate.
Defined.

End LegacyMore.

Module ExamCardMore.
Import ExamCard.

Lemma not_positive q : (q <= 0)%Q -> positive (or_zero (Finite q)) = false.
Proof.
  intro H. unfold or_zero. destruct (Qeq_bool q 0); [reflexivity|].
  unfold positive. apply Z.ltb_ge. unfold Qle in H. simpl in H. lia.
Qed.

(** X15: the fee gate lets an existing student through when there is no
    fees record at all, and when the balance of the record read is zero,
    negative or not a number: the handler goes on to look for the file,
    with the fee status [no_record] in the first case and [paid] in the
    others. *)
Theorem exam_card_gate_open
        (file_response : Type)
        (serve_exam_card : db -> Db.student -> string -> file_response)
        d studentId student rest :
  select_student_by_id d studentId = student :: rest ->
  (select_fees d studentId = [] ->
   get_exam_card file_response serve_exam_card d studentId =
     Continued file_response (serve_exam_card d student "no_record")) /\
  (forall feeRow feeRest,
      select_fees d studentId = feeRow :: feeRest ->
      fee_balance feeRow = NumNaN \/
      (exists q, fee_balance feeRow = Num q /\ (q <= 0)%Q) ->
      get_exam_card file_response serve_exam_card d studentId =
        Continued file_response (serve_exam_card d student "paid")).
Proof.
  intro Hst. unfold get_exam_card. rewrite Hst. split.
  - intros ->. reflexivity.
  - intros feeRow feeRest -> [Hnan | (q & Hq & Hle)].
    + rewrite Hnan. reflexivity.
    + rewrite Hq. cbn [parseFloat]. now rewrite (not_positive q Hle).
Qed.

Lemma exam_card_gate_open_witness :
  get_exam_card string Sample.serve Fixtures.fresh_campus 1 =
    Continued string (Sample.serve Fixtures.fresh_campus Sample.amina "no_record") /\
  get_exam_card string Sample.serve (Fixtures.with_balance NumNaN) 1 =
    Continued string
      (Sample.serve (Fixtures.with_balance NumNaN) Sample.amina "paid") /\
  get_exam_card string Sample.serve (Fixtures.with_balance (Num (-25 # 1))) 1 =
    Continued string
      (Sample.serve (Fixtures.with_balance (Num (-25 # 1))) Sample.amina "paid").
Proof.
  split; [|split].
  - apply (proj1 (exam_card_gate_open string Sample.serve Fixtures.fresh_campus 1
                    Sample.amina [] eq_refl)).
    reflexivity.
  - apply (proj2 (exam_card_gate_open string Sample.serve
                    (Fixtures.with_balance NumNaN) 1 Sample.amina [] eq_refl)
                 {| fee_student_id := 1; fee_balance := NumNaN |} []).
    + reflexivity.
    + left. reflexivity.
  - apply (proj2 (exam_card_gate_open string Sample.serve
                    (Fixtures.with_balance (Num (-25 # 1))) 1 Sample.amina []
                    eq_refl)
                 {| fee_student_id := 1; fee_balance := Num (-25 # 1) |} []).
    + reflexivity.
    + right. exists (-25 # 1). split; [reflexivity|]. discriminate.
Defined.

End ExamCardMore.

(* ------------------------------------------------------------------------- *)
(** ** The other allocation routes, the listings and the catalogue *)

Module RoutesMore.
Import Allocation AllocationRoutes Listings.

Lemma insert_by_perm {A : Type} (le : A -> A -> bool) x l :
  Permutation (insert_by le x l) (x :: l).
Proof.
  induction l as [|y l IH]; simpl; [reflexivity|].
  destruct (le x y); [reflexivity|].
  rewrite IH. apply perm_swap.
Qed.

Lemma order_by_perm {A : Type} (le : A -> A -> bool) l :
  Permutation (order_by le l) l.
Proof.
  induction l as [|x l IH]; simpl; [reflexivity|].
  rewrite insert_by_perm. now constructor.
Qed.

Lemma in_order_by {A : Type} (le : A -> A -> bool) l x :
  In x (order_by le l) <-> In x l.
Proof.
  split; apply Permutation_in; [|symmetry]; apply order_by_perm.
Qed.












Lemma register_allocated_unit_success d regNumber b msg r reg flag d' :
  Registration.register_allocated_unit Registration.postgres d regNumber b =
    (Registration.Success msg (Some r) reg flag, d') ->
  registered_units d' = (registered_units d ++ [r])%list.
Proof.
  unfold Registration.register_allocated_unit.
  destruct (Registration.allocated_unit_id b) as [id|]; [|discriminate].
  destruct (select_student_by_registration d regNumber) as [|student ?];
    [discriminate|].
  destruct (select_allocated_for_student d id (st_id student)) as [|au ?];
    [discriminate|].
  destruct (select_registered d (st_id student) (aw_unit_code au));
    [|discriminate].
  unfold sql_begin, Registration.register_transaction, bind, ret.
  cbn [Registration.postgres Registration.exec_update_status
       Registration.exec_insert_registered].
  unfold update_allocated_status, insert_registered_unit.
  cbn [students set_allocated_units].
  destruct (negb (existsb (fun s => (st_id s =? st_id student)%nat) (students d)));
    [discriminate|].
  cbn [hd_error]. intro H. injection H as _ Hr _ _ Hd. subst r d'. reflexivity.
Qed.

Lemma units_register_success d b msg r reg d' :
  Legacy.units_register d b = (Legacy.Success msg r reg, d') ->
  registered_units d' = (registered_units d ++ [r])%list.
Proof.
  unfold Legacy.units_register.
  destruct (Legacy.student_reg b) as [sreg|]; [|discriminate].
  destruct (Legacy.unit_name b) as [name|]; [|discriminate].
  destruct (Legacy.unit_code b) as [code|]; [|discriminate].
  destruct ((sreg =? "") || (name =? "") || (code =? "")); [discriminate|].
  destruct (select_student_by_registration d sreg) as [|st rest]; [discriminate|].
  set (created := match select_unit_by_code d code with
                  | [] => insert_unit name code d
                  | _ :: _ => (Return tt, d)
                  end).
  assert (Hc : registered_units (snd created) = registered_units d).
  { unfold created. destruct (select_unit_by_code d code); [|reflexivity].
    unfold insert_unit.
    destruct (existsb (fun u => u_unit_code u =? code) (units d)); reflexivity. }
  destruct created as [[[]|e] d1]; [|discriminate].
  cbn [snd] in Hc.
  destruct (select_registered d1 (st_id st) code); [|discriminate].
  unfold insert_registered_unit.
  destruct (negb (existsb (fun s => (st_id s =? st_id st)%nat) (students d1)));
    [discriminate|].
  intro H. injection H as _ Hr _ Hd. subst r d'.
  cbn [set_registered_units registered_units]. now rewrite Hc.
Qed.

(** X19: a registration made through either route (an allocated unit
    registered, or the direct registration) is then in the listing of the
    student's registered units, which gains exactly that one entry and loses
    none, for any student listed. *)
Theorem registration_is_listed text_le d d' r regNumber b1 b2 msg reg flag :
  Registration.register_allocated_unit Registration.postgres d regNumber b1 =
    (Registration.Success msg (Some r) reg flag, d') \/
  Legacy.units_register d b2 = (Legacy.Success msg r reg, d') ->
  In r (get_registered_units text_le d' (ru_student_id r)) /\
  length (get_registered_units text_le d' (ru_student_id r)) =
    S (length (get_registered_units text_le d (ru_student_id r))) /\
  (forall studentId x,
     In x (get_registered_units text_le d studentId) ->
     In x (get_registered_units text_le d' studentId)) /\
  (forall studentId,
     studentId <> ru_student_id r ->
     get_registered_units text_le d' studentId =
     get_registered_units text_le d studentId).
Proof.
  intro H.
  assert (Happ : registered_units d' = (registered_units d ++ [r])%list).
  { destruct H as [H | H];
      [eapply register_allocated_unit_success | eapply units_register_success];
      exact H. }
  clear H. unfold get_registered_units. rewrite Happ.
  split; [|split; [|split]].
  - apply in_order_by. apply filter_In. split.
    + apply in_or_app. right. now left.
    + apply Nat.eqb_refl.
  - rewrite !(Permutation_length (order_by_perm _ _)).
    rewrite filter_app, length_app. cbn [filter]. rewrite Nat.eqb_refl.
    cbn [length]. lia.
  - intros studentId x Hx. apply in_order_by. apply in_order_by in Hx.
    rewrite filter_app. apply in_or_app. now left.
  - intros studentId Hne. rewrite filter_app. cbn [filter].
    destruct (Nat.eqb_spec (ru_student_id r) studentId) as [E|_];
      [congruence|]. now rewrite app_nil_r.
Qed.

Lemma registration_is_listed_witness :
  In {| ru_id := 100; ru_student_id := 1; ru_unit_name := "Databases";
        ru_unit_code := "CS102"; ru_status := "active" |}
     (get_registered_units String.leb
        (snd (Legacy.units_register Fixtures.fresh_campus
                (Sample.direct_registration None))) 1).
Proof.
  refine (proj1 (registration_is_listed String.leb Fixtures.fresh_campus
           (snd (Legacy.units_register Fixtures.fresh_campus
                   (Sample.direct_registration None)))
           {| ru_id := 100; ru_student_id := 1; ru_unit_name := "Databases";
              ru_unit_code := "CS102"; ru_status := "active" |}
           "CS/001/2021" {| Registration.allocated_unit_id := None |}
           (Sample.direct_registration None)
           "Unit registered successfully for student" "CS/001/2021" true _)).
  right. vm_compute. reflexivity.
Defined.

(** X20: a document stored under a registration number that no student
    has (the upload accepts such numbers) is returned by the listing by
    registration number, and by no listing by student id, whatever the id. *)
Theorem document_without_student_is_listed_by_number_only (w : Upload.world) doc :
  In doc (student_documents (Upload.database w)) ->
  select_student_by_registration (Upload.database w)
                                 (sd_registration_number doc) = [] ->
  In doc (fst (Upload.get_documents w (sd_registration_number doc))) /\
  forall studentId data count sid reg,
    get_student_documents (Upload.database w) studentId =
      Documents data count sid reg ->
    ~ In doc data.
Proof.
  intros Hin Hnone. split.
  - unfold Upload.get_documents, select_documents. cbn [fst].
    apply (Permutation_in doc
             (Permutation_sym (UploadFacts.order_by_uploaded_at_desc_perm _))).
    apply filter_In. split; [exact Hin | apply String.eqb_refl].
  - intros studentId data count sid reg Hget Hdoc.
    unfold get_student_documents in Hget.
    destruct (select_student_by_id (Upload.database w) studentId)
      as [|student rest] eqn:Hst; [discriminate|].
    injection Hget as Hdata _ _ _. subst data.
    unfold select_documents in Hdoc.
    apply (Permutation_in doc (UploadFacts.order_by_uploaded_at_desc_perm _))
      in Hdoc.
    apply filter_In in Hdoc. destruct Hdoc as (_ & Heq).
    apply String.eqb_eq in Heq.
    apply filter_head in Hst. destruct Hst as (Hs & _).
    revert Hnone. unfold select_student_by_registration.
    apply (filter_nonempty
             (fun s => st_registration_number s =? sd_registration_number doc)
             _ student Hs).
    rewrite Heq. apply String.eqb_refl.
Qed.

Lemma document_without_student_is_listed_by_number_only_witness :
  In Fixtures.stray_document
     (fst (Upload.get_documents Fixtures.archive "CS/404/2021")) /\
  forall studentId data count sid reg,
    get_student_documents (Upload.database Fixtures.archive) studentId =
      Documents data count sid reg ->
    ~ In Fixtures.stray_document data.
Proof.
  apply (document_without_student_is_listed_by_number_only Fixtures.archive
           Fixtures.stray_document).
  - simpl. left. reflexivity.
  - reflexivity.
Defined.

(** X21: creating a unit whose code is not in the catalogue adds exactly
    that unit, with the name and code of the request; the catalogue listing
    then shows it beside every unit it showed before, and the same request
    again is refused with 409 and changes nothing. *)
Theorem created_unit_is_in_the_catalogue text_le d name code :
  name <> "" -> code <> "" ->
  select_unit_by_code d code = [] ->
  exists row d',
    create_unit d {| unit_name := Some name; unit_code := Some code |} =
      (UnitCreated "Unit created successfully" (Some row), d') /\
    u_unit_name row = name /\ u_unit_code row = code /\
    units d' = (units d ++ [row])%list /\
    In row (get_units text_le d') /\
    (forall u, In u (get_units text_le d) -> In u (get_units text_le d')) /\
    length (get_units text_le d') = S (length (get_units text_le d)) /\
    create_unit d' {| unit_name := Some name; unit_code := Some code |} =
      (Refused 409 "Unit already exists"
         "A unit with this code already exists", d').
Proof.
  intros Hname Hcode Hnone.
  assert (Hex : existsb (fun u => u_unit_code u =? code) (units d) = false).
  { destruct (existsb (fun u => u_unit_code u =? code) (units d)) eqn:E;
      [|reflexivity].
    apply existsb_exists in E. destruct E as (u & Hu & Hc).
    exfalso. revert Hnone. unfold select_unit_by_code.
    now apply (filter_nonempty (fun u => u_unit_code u =? code) _ u Hu). }
  assert (Ht : forall s, s <> "" -> truthy (Some s) = true).
  { intros [|c s] Hs; [congruence | reflexivity]. }
  set (row := {| u_id := next_uuid d; u_unit_name := name;
                 u_unit_code := code |}).
  exists row, (set_units d (units d ++ [row]) (S (next_uuid d))).
  split; [|split; [reflexivity|split; [reflexivity|split; [reflexivity|]]]].
  - unfold create_unit. cbn [unit_name unit_code default].
    rewrite (Ht name Hname), (Ht code Hcode). cbn [negb orb].
    rewrite Hnone. unfold insert_unit_returning. rewrite Hex. reflexivity.
  - split; [|split; [|split]].
    + apply in_order_by. cbn [set_units units]. apply in_or_app. right. now left.
    + intros u Hu. apply in_order_by. apply in_order_by in Hu.
      cbn [set_units units]. apply in_or_app. now left.
    + unfold get_units. rewrite !(Permutation_length (order_by_perm _ _)).
      cbn [set_units units]. rewrite length_app. cbn [length]. lia.
    + unfold create_unit. cbn [unit_name unit_code default].
      rewrite (Ht name Hname), (Ht code Hcode). cbn [negb orb].
      unfold select_unit_by_code. cbn [set_units units].
      rewrite filter_app. cbn [filter u_unit_code row].
      rewrite String.eqb_refl.
      fold (select_unit_by_code d code). rewrite Hnone. reflexivity.
Qed.

Lemma created_unit_is_in_the_catalogue_witness :
  exists row d',
    create_unit Fixtures.fresh_campus
        {| unit_name := Some "Compilers"; unit_code := Some "CS103" |} =
      (UnitCreated "Unit created successfully" (Some row), d') /\
    u_unit_name row = "Compilers" /\ u_unit_code row = "CS103" /\
    units d' = (units Fixtures.fresh_campus ++ [row])%list /\
    In row (get_units String.leb d') /\
    (forall u, In u (get_units String.leb Fixtures.fresh_campus) ->
               In u (get_units String.leb d')) /\
    length (get_units String.leb d') =
      S (length (get_units String.leb Fixtures.fresh_campus)) /\
    create_unit d' {| unit_name := Some "Compilers"; unit_code := Some "CS103" |} =
      (Refused 409 "Unit already exists"
         "A unit with this code already exists", d').
Proof.
  apply (created_unit_is_in_the_catalogue String.leb Fixtures.fresh_campus
           "Compilers" "CS103").
  - discriminate.
  - discriminate.
  - reflexivity.
Defined.

End RoutesMore.

(* ------------------------------------------------------------------------- *)
(** ** The uploads by student id *)

Module StudentFilesMore.
Import Upload StudentFiles.











Lemma upload_fee_receipt_finance env pl now studentId value s :
  let s' := snd (upload_fee_receipt env pl now studentId value s) in
  finance s' = finance s \/
  exists row, finance s' = (finance s ++ [row])%list /\
              fin_statement_url row = None.
Proof.
  cbn zeta. unfold upload_fee_receipt.
  destruct (fileUploadValidator value) as [status error | reg file];
    [now left|].
  destruct (select_student_by_id (database (site s)) studentId); [now left|].
  unfold bind, on_site.
  destruct (handleFileUpload env pl reg file "fees-receipt" (site s))
    as [[data|e] w1]; [|now left].
  unfold insert_finance.
  destruct (negb (student_known _ studentId)); [now left|].
  right. eexists. split; reflexivity.
Qed.

Lemma upload_fee_statement_finance env pl now studentId value s :
  let s' := snd (upload_fee_statement env pl now studentId value s) in
  finance s' = finance s \/
  exists row, finance s' = (finance s ++ [row])%list /\
              fin_receipt_url row = None.
Proof.
  cbn zeta. unfold upload_fee_statement.
  destruct (fileUploadValidator value) as [status error | reg file];
    [now left|].
  destruct (select_student_by_id (database (site s)) studentId); [now left|].
  unfold bind, on_site.
  destruct (handleFileUpload env pl reg file "fees-statement" (site s))
    as [[data|e] w1]; [|now left].
  unfold insert_finance.
  destruct (negb (student_known _ studentId)); [now left|].
  right. eexists. split; reflexivity.
Qed.

(** X24: statements and receipts do not disturb each other: whatever a
    receipt upload does, the fee statement served for every student is the
    one served before, and whatever a statement upload does, so is the
    receipt. *)
Theorem receipt_and_statement_do_not_mix env pl now studentId value s other :
  get_fee_statement (snd (upload_fee_receipt env pl now studentId value s)) other =
    get_fee_statement s other /\
  get_fee_receipt (snd (upload_fee_statement env pl now studentId value s)) other =
    get_fee_receipt s other.
Proof.
  split.
  - destruct (upload_fee_receipt_finance env pl now studentId value s)
      as [H | (row & H & Hnone)]; cbn zeta in H;
      unfold get_fee_statement; rewrite H; [reflexivity|].
    rewrite filter_app. cbn [filter]. rewrite Hnone. cbn [is_some].
    rewrite andb_false_r. now rewrite app_nil_r.
  - destruct (upload_fee_statement_finance env pl now studentId value s)
      as [H | (row & H & Hnone)]; cbn zeta in H;
      unfold get_fee_receipt; rewrite H; [reflexivity|].
    rewrite filter_app. cbn [filter]. rewrite Hnone. cbn [is_some].
    rewrite andb_false_r. now rewrite app_nil_r.
Qed.

Lemma current_is_no_integer :
  int4_in "Current" =
  Throw (Error ("invalid input syntax for type integer: " ++ quoted "Current")).
Proof. reflexivity. Qed.

(** X25: the results upload by student id never answers with success: the
    semester it writes into the integer column of the results table is the
    text Current, which the database refuses, so every request ends in an
    error response and neither legacy table gains a row. *)
Theorem results_upload_by_id_never_succeeds
        env pl now uploaded_at studentId value s :
  exists status error details,
    fst (upload_results env pl now uploaded_at studentId value s) =
      Rejected status error details /\
    results (snd (upload_results env pl now uploaded_at studentId value s)) =
      results s /\
    finance (snd (upload_results env pl now uploaded_at studentId value s)) =
      finance s.
Proof.
  unfold upload_results.
  destruct (fileUploadValidator value) as [status error | reg file];
    [cbn [fst snd]; do 3 eexists; repeat split|].
  destruct (select_student_by_id (database (site s)) studentId);
    [cbn [fst snd]; do 3 eexists; repeat split|].
  unfold bind, on_site.
  destruct (handleFileUpload env pl reg file "results" (site s))
    as [[data|e] w1]; [|cbn [fst snd]; do 3 eexists; repeat split].
  cbn zeta. unfold insert_result. rewrite current_is_no_integer.
  cbn [fst snd]. do 3 eexists. repeat split.
Qed.





End StudentFilesMore.

(* ------------------------------------------------------------------------- *)
(** ** The statements of a migration file *)

Module MigrationsMore.
Import Upload Migrations.

Lemma append_assoc3 (a b c : string) : (a ++ b) ++ c = a ++ (b ++ c).
Proof.
  induction a as [|x a IH]; [reflexivity|]. cbn. now rewrite IH.
Qed.

Lemma append_empty (a : string) : a ++ "" = a.
Proof.
  induction a as [|x a IH]; [reflexivity|]. cbn. now rewrite IH.
Qed.

Lemma text_app l1 l2 : text (l1 ++ l2) = text l1 ++ text l2.
Proof.
  induction l1 as [|x l1 IH]; [reflexivity|].
  cbn [app text fold_right]. fold (text (l1 ++ l2)). fold (text l1).
  now rewrite IH, !append_assoc3.
Qed.

Lemma blank_app a b : blank (a ++ b) = blank a && blank b.
Proof.
  induction a as [|x a IH]; [reflexivity|].
  cbn. rewrite IH. now rewrite andb_assoc.
Qed.

Lemma blank_trim s : blank s = true -> trim s = "".
Proof.
  unfold trim. induction s as [|c s IH]; [reflexivity|].
  cbn. intro H. apply andb_prop in H. destruct H as (Hc & Hs).
  rewrite Hc. now apply IH.
Qed.

Lemma trim_end_head c r :
  is_space c = false -> exists r', trim_end (String c r) = String c r'.
Proof.
  intro Hc. cbn [trim_end]. destruct (trim_end r) as [|x r'].
  - rewrite Hc. now exists "".
  - now exists (String x r').
Qed.

Lemma nonblank_trim s :
  blank s = false ->
  exists c r, trim s = String c r /\ is_space c = false.
Proof.
  unfold trim. induction s as [|c s IH]; [discriminate|].
  cbn [blank trim_start]. destruct (is_space c) eqn:Hc.
  - cbn [andb]. exact IH.
  - intros _. destruct (trim_end_head c s Hc) as (r' & Hr).
    exists c, r'. split; assumption.
Qed.

Lemma trim_nonblank s : blank s = false -> (trim s =? "") = false.
Proof.
  intro H. destruct (nonblank_trim s H) as (c & r & Ht & _). now rewrite Ht.
Qed.

Lemma trim_twice_nonblank s : blank s = false -> (trim (trim s) =? "") = false.
Proof.
  intro H. destruct (nonblank_trim s H) as (c & r & Ht & Hc).
  apply trim_nonblank. rewrite Ht. cbn [blank]. now rewrite Hc.
Qed.

Lemma prefix_blank n : forall s,
  String.prefix n s = true -> blank s = true -> blank n = true.
Proof.
  induction n as [|x n IH]; intros s Hp Hb; [reflexivity|].
  destruct s as [|y s]; [discriminate|].
  cbn [String.prefix] in Hp. cbn [blank] in Hb |- *.
  apply andb_prop in Hb. destruct Hb as (Hy & Hs).
  destruct (Ascii.ascii_dec x y) as [E|E]; [|discriminate].
  subst y. rewrite Hy. cbn [andb]. exact (IH s Hp Hs).
Qed.

Lemma includes_blank n s :
  includes n s = true -> blank s = true -> blank n = true.
Proof.
  induction s as [|y s IH]; intros Hi Hb.
  - cbn [includes] in Hi. rewrite orb_false_r in Hi.
    exact (prefix_blank n "" Hi Hb).
  - cbn [includes] in Hi. apply orb_prop in Hi. destruct Hi as [Hp | Hi].
    + exact (prefix_blank n _ Hp Hb).
    + cbn [blank] in Hb. apply andb_prop in Hb. destruct Hb as (_ & Hs).
      exact (IH Hi Hs).
Qed.

Lemma opening_line_not_blank line :
  opens_function line = true -> blank line = false.
Proof.
  intro H. destruct (blank line) eqn:Hb; [|reflexivity].
  unfold opens_function in H.
  repeat (apply orb_prop in H; destruct H as [H | H]);
    apply (fun Hi => includes_blank _ _ Hi Hb) in H; discriminate.
Qed.

Lemma closing_line_not_blank line :
  endsWith (trim line) ";" = true \/ ends_language (trim line) = true ->
  blank line = false.
Proof.
  intro H. destruct (blank line) eqn:Hb; [|reflexivity].
  rewrite (blank_trim line Hb) in H. destruct H; discriminate.
Qed.

Lemma text_not_blank l1 line l2 :
  blank line = false -> blank (text (l1 ++ line :: l2)) = false.
Proof.
  intro H. rewrite text_app, blank_app. cbn [text fold_right].
  rewrite blank_app, H. cbn [andb]. apply andb_false_r.
Qed.

Lemma fold_open lines : forall st,
  forallb open_line lines = true ->
  inFunction st = false ->
  fold_left step lines st =
  {| statements := statements st;
     currentStatement := currentStatement st ++ text lines;
     inFunction := false |}.
Proof.
  induction lines as [|line lines IH]; intros st Hall Hin.
  - cbn. rewrite append_empty. destruct st; cbn in *; now subst.
  - cbn [forallb] in Hall. apply andb_prop in Hall. destruct Hall as (Hl & Hall).
    unfold open_line in Hl. apply andb_prop in Hl. destruct Hl as (Ho & He).
    apply negb_true_iff in Ho. apply negb_true_iff in He.
    cbn [fold_left]. unfold step at 2. rewrite Hin, Ho, He. cbn [orb andb negb].
    rewrite IH; [|exact Hall|reflexivity].
    cbn [statements currentStatement text fold_right]. fold (text lines).
    now rewrite !append_assoc3.
Qed.

Lemma fold_in_function lines : forall st,
  forallb (fun l => negb (ends_language (trim l))) lines = true ->
  inFunction st = true ->
  fold_left step lines st =
  {| statements := statements st;
     currentStatement := currentStatement st ++ text lines;
     inFunction := true |}.
Proof.
  induction lines as [|line lines IH]; intros st Hall Hin.
  - cbn. rewrite append_empty. destruct st; cbn in *; now subst.
  - cbn [forallb] in Hall. apply andb_prop in Hall. destruct Hall as (Hl & Hall).
    apply negb_true_iff in Hl.
    cbn [fold_left]. unfold step at 2. rewrite Hin, Hl. cbn [orb andb negb].
    rewrite IH; [|exact Hall|reflexivity].
    cbn [statements currentStatement text fold_right]. fold (text lines).
    now rewrite !append_assoc3.
Qed.

Lemma fold_opening pre first rest st :
  forallb open_line pre = true ->
  opens_function first = true ->
  forallb (fun l => negb (ends_language (trim l))) (first :: rest) = true ->
  inFunction st = false ->
  fold_left step (pre ++ first :: rest) st =
  {| statements := statements st;
     currentStatement := currentStatement st ++ text (pre ++ first :: rest);
     inFunction := true |}.
Proof.
  intros Hpre Hfirst Hrest Hin.
  rewrite fold_left_app, (fold_open pre st Hpre Hin).
  cbn [forallb] in Hrest. apply andb_prop in Hrest. destruct Hrest as (Hf & Hrest).
  apply negb_true_iff in Hf.
  cbn [fold_left]. unfold step at 2.
  cbn [inFunction statements currentStatement]. rewrite Hfirst, Hf.
  cbn [orb andb negb].
  rewrite fold_in_function; [|exact Hrest|reflexivity].
  cbn [statements currentStatement]. rewrite text_app.
  cbn [text fold_right]. fold (text rest). now rewrite !append_assoc3.
Qed.

Lemma fold_chunk c st :
  well_formed c = true ->
  inFunction st = false ->
  fold_left step (lines_of c) st =
  {| statements := (statements st ++
                    [trim (currentStatement st ++ text (lines_of c))])%list;
     currentStatement := ""; inFunction := false |}.
Proof.
  intros Hwf Hin. destruct c as [body last | pre first inner last];
    cbn [well_formed lines_of] in *.
  - apply andb_prop in Hwf. destruct Hwf as (Hwf & Hend).
    apply andb_prop in Hwf. destruct Hwf as (Hbody & Hlast).
    apply negb_true_iff in Hlast.
    rewrite fold_left_app, (fold_open body st Hbody Hin).
    cbn [fold_left]. unfold step.
    cbn [inFunction statements currentStatement]. rewrite Hlast, Hend.
    cbn [orb andb negb]. rewrite text_app. cbn [text fold_right].
    now rewrite !append_assoc3.
  - apply andb_prop in Hwf. destruct Hwf as (Hwf & Hend).
    apply andb_prop in Hwf. destruct Hwf as (Hwf & Hinner).
    apply andb_prop in Hwf. destruct Hwf as (Hpre & Hfirst).
    replace (pre ++ first :: inner ++ [last])%list
      with ((pre ++ first :: inner) ++ [last])%list
      by (now rewrite <- app_assoc).
    rewrite fold_left_app, (fold_opening pre first inner st Hpre Hfirst Hinner Hin).
    cbn [fold_left]. unfold step.
    cbn [inFunction statements currentStatement]. rewrite Hend.
    cbn [orb andb]. rewrite (text_app (pre ++ first :: inner) [last]).
    cbn [text fold_right]. now rewrite !append_assoc3.
Qed.

Lemma fold_chunks chunks : forall done,
  forallb well_formed chunks = true ->
  fold_left step (flat_map lines_of chunks)
            {| statements := done; currentStatement := ""; inFunction := false |} =
  {| statements := (done ++ map statement_of chunks)%list;
     currentStatement := ""; inFunction := false |}.
Proof.
  induction chunks as [|c chunks IH]; intros done Hall.
  - cbn. now rewrite app_nil_r.
  - cbn [forallb] in Hall. apply andb_prop in Hall. destruct Hall as (Hc & Hall).
    cbn [flat_map].
    rewrite fold_left_app,
      (fold_chunk c {| statements := done; currentStatement := "";
                       inFunction := false |} Hc eq_refl).
    cbn [statements currentStatement]. rewrite (IH _ Hall).
    cbn [map]. rewrite <- app_assoc. reflexivity.
Qed.

Lemma chunk_not_blank c :
  well_formed c = true -> blank (text (lines_of c)) = false.
Proof.
  intro Hwf. destruct c as [body last | pre first inner last];
    cbn [well_formed lines_of] in *.
  - apply andb_prop in Hwf. destruct Hwf as (_ & Hend).
    apply text_not_blank. apply closing_line_not_blank. now left.
  - apply andb_prop in Hwf. destruct Hwf as (Hwf & _).
    apply andb_prop in Hwf. destruct Hwf as (Hwf & _).
    apply andb_prop in Hwf. destruct Hwf as (_ & Hfirst).
    apply text_not_blank. now apply opening_line_not_blank.
Qed.

Lemma statements_kept chunks :
  forallb well_formed chunks = true ->
  filter (fun s => negb (trim s =? "")) (map statement_of chunks) =
  map statement_of chunks.
Proof.
  induction chunks as [|c chunks IH]; intro Hall; [reflexivity|].
  cbn [forallb] in Hall. apply andb_prop in Hall. destruct Hall as (Hc & Hall).
  cbn [map filter]. unfold statement_of at 1.
  rewrite (trim_twice_nonblank _ (chunk_not_blank c Hc)). cbn [negb].
  now rewrite (IH Hall).
Qed.

(** X28: a migration file laid out as plain statements, each ending its
    last line with a semicolon, and routines, each from CREATE FUNCTION or
    CREATE PROCEDURE to the line that names its language, is cut into exactly
    one statement per piece, in order, the semicolons inside a routine cutting
    nothing; lines after the last piece form one more statement unless they
    are blank. *)
Theorem statements_follow_the_layout chunks rest :
  forallb well_formed chunks = true ->
  forallb open_line rest = true ->
  split_statements (flat_map lines_of chunks ++ rest) =
  (map statement_of chunks ++
   (if trim (text rest) =? "" then [] else [trim (text rest)]))%list.
Proof.
  intros Hchunks Hrest. unfold split_statements, start.
  rewrite fold_left_app, (fold_chunks chunks [] Hchunks).
  rewrite (fold_open rest {| statements := ([] ++ map statement_of chunks)%list;
                             currentStatement := ""; inFunction := false |}
             Hrest eq_refl).
  cbn [statements currentStatement app append].
  destruct (trim (text rest) =? "") eqn:Ht.
  - rewrite app_nil_r. now apply statements_kept.
  - rewrite filter_app, (statements_kept chunks Hchunks). cbn [filter].
    rewrite trim_twice_nonblank; [reflexivity|].
    destruct (blank (text rest)) eqn:Hb; [|reflexivity].
    rewrite (blank_trim _ Hb) in Ht. discriminate.
Qed.

Lemma statements_follow_the_layout_witness :
  split_statements
    (flat_map lines_of [index_statement; password_routine] ++ [""; "-- end"]) =
  (map statement_of [index_statement; password_routine] ++
   (if trim (text [""; "-- end"]) =? "" then []
    else [trim (text [""; "-- end"])]))%list.
Proof.
  apply (statements_follow_the_layout [index_statement; password_routine]
           [""; "-- end"]).
  - vm_compute. reflexivity.
  - vm_compute. reflexivity.
Defined.

(** X29: a routine whose language line the runner does not recognise (the
    language written in quotes, as in the migration of the student documents
    table) is never closed: after the pieces before it, everything from the
    routine to the end of the file is one statement, whatever semicolons the
    later lines end with. *)
Theorem unclosed_routine_takes_the_rest chunks pre first rest :
  forallb well_formed chunks = true ->
  forallb open_line pre = true ->
  opens_function first = true ->
  forallb (fun l => negb (ends_language (trim l))) (first :: rest) = true ->
  split_statements (flat_map lines_of chunks ++ pre ++ first :: rest) =
  (map statement_of chunks ++ [trim (text (pre ++ first :: rest))])%list.
Proof.
  intros Hchunks Hpre Hfirst Hrest. unfold split_statements, start.
  rewrite fold_left_app, (fold_chunks chunks [] Hchunks).
  rewrite (fold_opening pre first rest
             {| statements := ([] ++ map statement_of chunks)%list;
                currentStatement := ""; inFunction := false |}
             Hpre Hfirst Hrest eq_refl).
  cbn [statements currentStatement app append].
  pose proof (text_not_blank pre first rest (opening_line_not_blank _ Hfirst))
    as Hb.
  rewrite (trim_nonblank _ Hb).
  rewrite filter_app, (statements_kept chunks Hchunks). cbn [filter].
  now rewrite (trim_twice_nonblank _ Hb).
Qed.

Lemma unclosed_routine_takes_the_rest_witness :
  split_statements
    (flat_map lines_of [index_statement; password_routine] ++
     [""; "-- Add a function to automatically update the updated_at timestamp"] ++
     updated_at_routine) =
  (map statement_of [index_statement; password_routine] ++
   [trim (text ([""; "-- Add a function to automatically update the updated_at timestamp"] ++
                updated_at_routine))])%list.
Proof.
  apply (unclosed_routine_takes_the_rest [index_statement; password_routine]
           [""; "-- Add a function to automatically update the updated_at timestamp"]
           "CREATE OR REPLACE FUNCTION update_updated_at_column()"
           (tl updated_at_routine)).
  - vm_compute. reflexivity.
  - vm_compute. reflexivity.
  - vm_compute. reflexivity.
  - vm_compute. reflexivity.
Defined.

Lemma split_lines_line line : forall acc rest,
  single_line line = true ->
  split_lines acc (line ++ newline ++ rest) =
  (acc ++ line) :: split_lines "" rest.
Proof.
  induction line as [|c line IH]; intros acc rest Hline.
  - cbn. now rewrite append_empty.
  - cbn [single_line] in Hline. apply andb_prop in Hline.
    destruct Hline as (Hc & Hline). apply negb_true_iff in Hc.
    cbn [append split_lines]. rewrite Hc.
    rewrite (IH _ rest Hline), append_assoc3. reflexivity.
Qed.

Lemma split_lines_text lines :
  forallb single_line lines = true ->
  split_lines "" (text lines) = (lines ++ [""])%list.
Proof.
  induction lines as [|line lines IH]; intro Hall; [reflexivity|].
  cbn [forallb] in Hall. apply andb_prop in Hall. destruct Hall as (Hl & Hall).
  cbn [text fold_right]. fold (text lines).
  rewrite (split_lines_line line "" (text lines) Hl), (IH Hall). reflexivity.
Qed.

(** X30: from the text of a file to its statements: when the text is the
    lines of well-laid-out pieces, every line ended by a line break, the
    runner executes exactly one statement per piece, in the order of the
    file, and nothing else. *)
Theorem file_is_cut_into_its_pieces chunks :
  forallb well_formed chunks = true ->
  forallb single_line (flat_map lines_of chunks) = true ->
  statements_of (text (flat_map lines_of chunks)) = map statement_of chunks.
Proof.
  intros Hchunks Hlines. unfold statements_of.
  rewrite (split_lines_text _ Hlines).
  unfold split_statements, start.
  rewrite fold_left_app, (fold_chunks chunks [] Hchunks).
  cbn [fold_left app]. unfold step.
  cbn [inFunction statements currentStatement].
  replace (opens_function "") with false by reflexivity.
  replace (endsWith (trim "") ";") with false by reflexivity.
  cbn [orb andb negb currentStatement statements].
  replace (trim ("" ++ "" ++ newline) =? "") with true by reflexivity.
  now apply statements_kept.
Qed.

Lemma file_is_cut_into_its_pieces_witness :
  statements_of (text (flat_map lines_of [index_statement; password_routine])) =
  map statement_of [index_statement; password_routine].
Proof.
  apply (file_is_cut_into_its_pieces [index_statement; password_routine]).
  - vm_compute. reflexivity.
  - vm_compute. reflexivity.
Defined.

End MigrationsMore.
